(** * KML viewer: feature summary, line lengths and map envelope

    A shallow embedding of [src/App.tsx]: the haversine distance
    ([calculateDistance]), the per-kind feature count ([showSummary]), the
    per-line length table ([showDetails]) and the bounds accumulation of
    [MapUpdater].

    Numbers.  A JavaScript number is read in two ways.  In [number] a finite
    value is an exact real, and the two special values the code can meet,
    [NaN] and the infinities, are kept apart; arithmetic on finite values
    is exact (rounding, overflow and the sign of zero are left out), and the
    special values follow IEEE 754 as ECMAScript prescribes.  This reading
    carries the control flow and the statements that rounding does not
    touch.  In [Binary64] a number is a binary64 float with the operations
    of IEEE 754, and [Math.sin], [Math.cos] and [Math.atan2] are the host's,
    known only through the values that ECMAScript fixes; this reading shows
    what rounding does to the distance. *)

From Stdlib Require Import Reals Lra Lia List String Bool Arith.
From Stdlib Require Import Permutation Ascii NArith Floats.
Import ListNotations.

Open Scope R_scope.

(** ** JavaScript numbers *)

Module JsNumber.

Inductive number : Type :=
| Fin (r : R)
| NaN
| Inf (negative : bool).

Definition isFinite (x : number) : bool :=
  match x with Fin _ => true | _ => false end.

(** [isNaN (x)] *)
Definition isNaN (x : number) : bool :=
  match x with NaN => true | _ => false end.

Definition Rneg (r : R) : bool := if Rlt_dec r 0 then true else false.
Definition Rzero (r : R) : bool := if Req_dec_T r 0 then true else false.

(** [x + y] *)
Definition add (x y : number) : number :=
  match x, y with
  | NaN, _ | _, NaN => NaN
  | Fin a, Fin b => Fin (a + b)
  | Inf s, Fin _ | Fin _, Inf s => Inf s
  | Inf s, Inf t => if Bool.eqb s t then Inf s else NaN
  end.

(** [- x] *)
Definition neg (x : number) : number :=
  match x with
  | NaN => NaN
  | Fin a => Fin (- a)
  | Inf s => Inf (negb s)
  end.

(** [x - y] *)
Definition sub (x y : number) : number := add x (neg y).

(** [x * y] *)
Definition mul (x y : number) : number :=
  match x, y with
  | NaN, _ | _, NaN => NaN
  | Fin a, Fin b => Fin (a * b)
  | Inf s, Fin a | Fin a, Inf s =>
      if Rzero a then NaN else Inf (xorb s (Rneg a))
  | Inf s, Inf t => Inf (xorb s t)
  end.

(** [x / y]; a finite zero divisor is taken as [+0]. *)
Definition div (x y : number) : number :=
  match x, y with
  | NaN, _ | _, NaN => NaN
  | Fin a, Fin b =>
      if Rzero b then (if Rzero a then NaN else Inf (Rneg a))
      else Fin (a / b)
  | Inf s, Fin b => Inf (xorb s (Rneg b))
  | Fin _, Inf _ => Fin 0
  | Inf _, Inf _ => NaN
  end.

(** [Math.sin], [Math.cos] *)
Definition sin (x : number) : number :=
  match x with Fin a => Fin (Rtrigo_def.sin a) | _ => NaN end.

Definition cos (x : number) : number :=
  match x with Fin a => Fin (Rtrigo_def.cos a) | _ => NaN end.

(** [Math.sqrt] *)
Definition sqrt (x : number) : number :=
  match x with
  | NaN => NaN
  | Fin a => if Rneg a then NaN else Fin (R_sqrt.sqrt a)
  | Inf s => if s then NaN else Inf false
  end.

(** The angle of the point [(x, y)], in (-PI, PI]. *)
Definition Ratan2 (y x : R) : R :=
  if Rlt_dec 0 x then atan (y / x)
  else if Rlt_dec x 0 then
         (if Rneg y then atan (y / x) - PI else atan (y / x) + PI)
  else if Rlt_dec 0 y then PI / 2
  else if Rlt_dec y 0 then - (PI / 2)
  else 0.

(** [Math.atan2 (y, x)] *)
Definition atan2 (y x : number) : number :=
  match y, x with
  | NaN, _ | _, NaN => NaN
  | Fin b, Fin a => Fin (Ratan2 b a)
  | Fin b, Inf s => if s then Fin (if Rneg b then - PI else PI) else Fin 0
  | Inf t, Fin _ => Fin (if t then - (PI / 2) else PI / 2)
  | Inf t, Inf s =>
      let q := if s then 3 * PI / 4 else PI / 4 in
      Fin (if t then - q else q)
  end.

(** [Math.min], [Math.max] *)
Definition min (x y : number) : number :=
  match x, y with
  | NaN, _ | _, NaN => NaN
  | Fin a, Fin b => Fin (Rmin a b)
  | Inf s, Fin b => if s then Inf true else Fin b
  | Fin a, Inf s => if s then Inf true else Fin a
  | Inf s, Inf t => Inf (s || t)
  end.

Definition max (x y : number) : number :=
  match x, y with
  | NaN, _ | _, NaN => NaN
  | Fin a, Fin b => Fin (Rmax a b)
  | Inf s, Fin b => if s then Fin b else Inf false
  | Fin a, Inf s => if s then Fin a else Inf false
  | Inf s, Inf t => Inf (s && t)
  end.

(** [Math.PI] *)
Definition Math_PI : number := Fin PI.

End JsNumber.

Import JsNumber.

Declare Scope js_scope.
Delimit Scope js_scope with js.
Bind Scope js_scope with number.
Infix "+" := add : js_scope.
Infix "-" := sub : js_scope.
Infix "*" := mul : js_scope.
Infix "/" := div : js_scope.

(** ** Distance engine *)

(** [const R = 6371] *)
Definition earthRadius : number := Fin 6371.

(** [dLat], [dLon]: [((x2 - x1) * Math.PI) / 180] *)
Definition toRadiansDelta (x1 x2 : number) : number :=
  (((x2 - x1) * Math_PI) / Fin 180)%js.

(** [(x * Math.PI) / 180] *)
Definition toRadians (x : number) : number :=
  ((x * Math_PI) / Fin 180)%js.

(** The quantity [a] of [calculateDistance]. *)
Definition haversine_a (lat1 lon1 lat2 lon2 : number) : number :=
  let dLat := toRadiansDelta lat1 lat2 in
  let dLon := toRadiansDelta lon1 lon2 in
  (JsNumber.sin (dLat / Fin 2) * JsNumber.sin (dLat / Fin 2) +
   JsNumber.cos (toRadians lat1) * JsNumber.cos (toRadians lat2) *
   JsNumber.sin (dLon / Fin 2) * JsNumber.sin (dLon / Fin 2))%js.

Definition calculateDistance (lat1 lon1 lat2 lon2 : number) : number :=
  let a := haversine_a lat1 lon1 lat2 lon2 in
  let c := (Fin 2 * atan2 (JsNumber.sqrt a) (JsNumber.sqrt (Fin 1 - a)))%js in
  (earthRadius * c)%js.

Close Scope R_scope.
Open Scope string_scope.

(** ** JavaScript values held by a feature collection *)

(** A string is held as the sequence of its code units, each of them below
    256. *)
#[warnings="-register-all"]
Inductive JsVal : Type :=
| JUndefined
| JNull
| JNum (n : number)
| JStr (s : string)
| JArr (elems : list JsVal).

(** What the code can throw: a [TypeError] of the language (calling a method
    of a value that does not have it, destructuring a value that is not
    iterable), or the [Error] "Invalid LatLng object" of the map library. *)
Inductive Exception : Type :=
| TypeError
| InvalidLatLng.

(** Outcome of a step that may throw. *)
Inductive Result (A : Type) : Type :=
| Ok (a : A)
| Throw (e : Exception).
Arguments Ok {A} a.
Arguments Throw {A} e.

Definition bind {A B : Type} (r : Result A) (k : A -> Result B) : Result B :=
  match r with
  | Ok a => k a
  | Throw e => Throw e
  end.

Notation "x <- r ;; k" := (bind r (fun x => k))
  (at level 61, r at next level, right associativity).
Notation "' p <- r ;; k" := (bind r (fun x => let p := x in k))
  (at level 61, p pattern, r at next level, right associativity).

(** [array.forEach (callback)] with a callback that threads a state and may
    throw: the first exception leaves the loop. *)
Fixpoint forEach {S A : Type} (callback : S -> A -> Result S)
         (array : list A) (s : S) : Result S :=
  match array with
  | [] => Ok s
  | x :: rest => s' <- callback s x ;; forEach callback rest s'
  end.

(** [!!v] *)
Definition truthy (v : JsVal) : bool :=
  match v with
  | JUndefined | JNull => false
  | JNum (Fin r) => negb (Rzero r)
  | JNum NaN => false
  | JNum (Inf _) => true
  | JStr s => negb (String.eqb s EmptyString)
  | JArr _ => true
  end.

(** [v.length] of a value that is neither [undefined] nor [null];
    [None] stands for [undefined]. *)
Definition jsLength (v : JsVal) : option nat :=
  match v with
  | JArr l => Some (List.length l)
  | JStr s => Some (String.length s)
  | _ => None
  end.

(** [v.length < n]: a comparison with [undefined] is false. *)
Definition lengthLt (v : JsVal) (n : nat) : bool :=
  match jsLength v with
  | Some k => Nat.ltb k n
  | None => false
  end.

(** [v[i]] of a value that is neither [undefined] nor [null]. *)
Definition index (v : JsVal) (i : nat) : JsVal :=
  match v with
  | JArr l => nth i l JUndefined
  | JStr s =>
      match String.get i s with
      | Some c => JStr (String c EmptyString)
      | None => JUndefined
      end
  | _ => JUndefined
  end.

(** One level of [Array.prototype.flat]. *)
Definition flat1 (l : list JsVal) : list JsVal :=
  flat_map (fun v => match v with JArr sub => sub | _ => [v] end) l.

(** [v.flat(1)] *)
Definition flat (v : JsVal) : Result JsVal :=
  match v with
  | JArr l => Ok (JArr (flat1 l))
  | _ => Throw TypeError
  end.

(** [const [x, y] = v] for a truthy or element value [v]. *)
Definition destructure2 (v : JsVal) : Result (JsVal * JsVal) :=
  match v with
  | JArr _ | JStr _ => Ok (index v 0, index v 1)
  | _ => Throw TypeError
  end.

(** ** The feature collection *)

Record Geometry : Type := {
  type : string;
  coordinates : JsVal
}.

Record Properties : Type := {
  name : option string
}.

Record GeoJsonFeature : Type := {
  geometry : option Geometry;
  properties : Properties
}.

Record GeoJsonData : Type := {
  features : list GeoJsonFeature
}.

(** ** Summary builder *)

(** A value stored under a key of the [elementCount] object: a count, or
    the text that [+ 1] makes of a value that is not a number. *)
Inductive CountValue : Type :=
| Count (n : nat)
| Text.

(** An object literal, its own properties in the order in which the
    language lists them: the keys that are array indices first, by
    ascending index, then the other keys in the order of their creation. *)
Definition ElementCount : Type := list (string * CountValue).

(** Names that an object literal inherits from [Object.prototype]. *)
Definition objectPrototypeNames : list string :=
  [ "constructor"; "hasOwnProperty"; "isPrototypeOf"; "propertyIsEnumerable";
    "toLocaleString"; "toString"; "valueOf"; "__proto__";
    "__defineGetter__"; "__defineSetter__";
    "__lookupGetter__"; "__lookupSetter__" ].

Inductive PropertyLookup : Type :=
| Own (v : CountValue)
| Inherited
| Missing.

Fixpoint ownProperty (o : ElementCount) (key : string) : option CountValue :=
  match o with
  | [] => None
  | (k, v) :: rest => if String.eqb k key then Some v else ownProperty rest key
  end.

(** [o[key]] *)
Definition getProperty (o : ElementCount) (key : string) : PropertyLookup :=
  match ownProperty o key with
  | Some v => Own v
  | None =>
      if existsb (String.eqb key) objectPrototypeNames then Inherited
      else Missing
  end.

(** The value of a string of decimal digits, read after [acc]. *)
Fixpoint decimalValue (s : string) (acc : N) : option N :=
  match s with
  | EmptyString => Some acc
  | String c rest =>
      let d := N_of_ascii c in
      if N.leb 48 d && N.leb d 57 then decimalValue rest (10 * acc + (d - 48))
      else None
  end.

(** The array index that a key is: the key is the canonical numeral (no
    sign, no leading zero) of an integer below 2^32 - 1. *)
Definition arrayIndex (key : string) : option N :=
  match key with
  | EmptyString => None
  | String c rest =>
      if Ascii.eqb c "0" && negb (String.eqb rest EmptyString) then None
      else
        match decimalValue key 0 with
        | Some n => if N.leb n 4294967294 then Some n else None
        | None => None
        end
  end.

(** Writing to a property that exists keeps its place. *)
Fixpoint replaceOwn (o : ElementCount) (key : string) (v : CountValue)
  : ElementCount :=
  match o with
  | [] => []
  | (k, w) :: rest =>
      if String.eqb k key then (k, v) :: rest
      else (k, w) :: replaceOwn rest key v
  end.

(** A new array index goes before the first key that is not a smaller
    index. *)
Fixpoint insertIndex (o : ElementCount) (key : string) (n : N)
         (v : CountValue) : ElementCount :=
  match o with
  | [] => [(key, v)]
  | (k, w) :: rest =>
      match arrayIndex k with
      | Some m =>
          if N.ltb m n then (k, w) :: insertIndex rest key n v
          else (key, v) :: o
      | None => (key, v) :: o
      end
  end.

(** A new property: an array index in its place, another key last. *)
Definition addOwn (o : ElementCount) (key : string) (v : CountValue)
  : ElementCount :=
  match arrayIndex key with
  | Some n => insertIndex o key n v
  | None => (o ++ [(key, v)])%list
  end.

Definition setOwn (o : ElementCount) (key : string) (v : CountValue)
  : ElementCount :=
  match ownProperty o key with
  | Some _ => replaceOwn o key v
  | None => addOwn o key v
  end.

(** [o[key] = v] for a number or a string [v]: the [__proto__] setter
    ignores such a value. *)
Definition setProperty (o : ElementCount) (key : string) (v : CountValue)
  : ElementCount :=
  if String.eqb key "__proto__" then o else setOwn o key v.

(** [(current || 0) + 1] *)
Definition orZeroPlusOne (current : PropertyLookup) : CountValue :=
  match current with
  | Own (Count n) => Count (n + 1)
  | Own Text => Text
  | Inherited => Text
  | Missing => Count 1
  end.

Definition initialElementCount : ElementCount :=
  [ ("Point", Count 0); ("LineString", Count 0);
    ("Polygon", Count 0); ("MultiLineString", Count 0) ].

(** The callback of [geoJson.features.forEach] in [showSummary]. *)
Definition countFeature (elementCount : ElementCount)
           (feature : GeoJsonFeature) : ElementCount :=
  match geometry feature with
  | Some g =>
      if negb (String.eqb (type g) EmptyString) then
        setProperty elementCount (type g)
                    (orZeroPlusOne (getProperty elementCount (type g)))
      else elementCount
  | None => elementCount
  end.

Definition elementCountOf (fs : list GeoJsonFeature) : ElementCount :=
  fold_left countFeature fs initialElementCount.

(** ** Detail builder *)

(** The string [x.toFixed(digits)], kept as the call that makes it. *)
Inductive FixedString : Type :=
| toFixed (x : number) (digits : nat).

Record DetailItem : Type := {
  itemType : string;
  itemLength : FixedString;
  itemName : string
}.

(** The body of the [for] loop: one consecutive pair of coordinates. *)
Definition addSegment (length : number) (coord1 coord2 : JsVal) : number :=
  if negb (truthy coord1) || negb (truthy coord2)
     || lengthLt coord1 2 || lengthLt coord2 2
  then length
  else
    match index coord1 0, index coord1 1, index coord2 0, index coord2 1 with
    | JNum lon1, JNum lat1, JNum lon2, JNum lat2 =>
        (length + calculateDistance lat1 lon1 lat2 lon2)%js
    | _, _, _, _ => length
    end.

(** [for (let i = 0; i < coordinates.length - 1; i++)], from [length = 0]. *)
Definition lineLength (coordinates : JsVal) : number :=
  let n := match jsLength coordinates with Some k => k | None => 0 end in
  fold_left
    (fun length i =>
       addSegment length (index coordinates i) (index coordinates (i + 1)))
    (seq 0 (n - 1)) (Fin 0).

(** [feature.properties.name || "Unnamed"] *)
Definition displayName (p : Properties) : string :=
  match name p with
  | Some s => if String.eqb s EmptyString then "Unnamed" else s
  | None => "Unnamed"
  end.

(** The coordinates the loop runs over. *)
Definition lineCoordinates (g : Geometry) : Result JsVal :=
  if String.eqb (type g) "LineString" then Ok (coordinates g)
  else flat (coordinates g).

(** The callback of [geoJson.features.forEach] in [showDetails]: the item
    pushed for the feature, if any. *)
Definition detailOf (feature : GeoJsonFeature) : Result (option DetailItem) :=
  match geometry feature with
  | None => Ok None
  | Some g =>
      if String.eqb (type g) EmptyString then Ok None
      else if String.eqb (type g) "LineString"
              || String.eqb (type g) "MultiLineString"
      then
        coords <- lineCoordinates g ;;
        if negb (truthy coords) || lengthLt coords 2 then Ok None
        else Ok (Some {| itemType := type g;
                         itemLength := toFixed (lineLength coords) 2;
                         itemName := displayName (properties feature) |})
      else Ok None
  end.

Definition pushDetail (detailedData : list DetailItem)
           (feature : GeoJsonFeature) : Result (list DetailItem) :=
  item <- detailOf feature ;;
  Ok (match item with
      | Some d => (detailedData ++ [d])%list
      | None => detailedData
      end).

Definition detailedDataOf (fs : list GeoJsonFeature)
  : Result (list DetailItem) :=
  forEach pushDetail fs [].

(** ** Application state and the two button handlers *)

Record AppState : Type := {
  geoJson : option GeoJsonData;
  summary : option ElementCount;
  details : option (list DetailItem)
}.

Definition showSummary (st : AppState) : AppState :=
  match geoJson st with
  | None => st
  | Some g =>
      {| geoJson := geoJson st;
         summary := Some (elementCountOf (features g));
         details := None |}
  end.

Definition showDetails (st : AppState) : Result AppState :=
  match geoJson st with
  | None => Ok st
  | Some g =>
      detailedData <- detailedDataOf (features g) ;;
      Ok {| geoJson := geoJson st;
            summary := None;
            details := Some detailedData |}
  end.

(** ** Envelope builder *)

(** Modelled from the spec: the bounds accumulator [L.LatLngBounds] belongs
    to the map library, not to this repository.  It holds the south-west and
    north-east corners of the smallest rectangle around the points folded
    in so far, and is valid once a point has been folded in. *)
Record Corners : Type := {
  south : number;
  west : number;
  north : number;
  east : number
}.

(** Modelled from the spec: the accumulator, empty until a point is folded
    in. *)
Definition LatLngBounds : Type := option Corners.

(** Modelled from the spec: [new L.LatLngBounds([])], the empty
    accumulator. *)
Definition emptyBounds : LatLngBounds := None.

(** Modelled from the spec: the corners after the point [(lat, lon)] has
    been folded in, the extrema of the points seen. *)
Definition extendCorners (bounds : LatLngBounds) (latlon : number * number)
  : LatLngBounds :=
  let (lat, lon) := latlon in
  match bounds with
  | None => Some {| south := lat; west := lon; north := lat; east := lon |}
  | Some c =>
      Some {| south := JsNumber.min lat (south c);
              west := JsNumber.min lon (west c);
              north := JsNumber.max lat (north c);
              east := JsNumber.max lon (east c) |}
  end.

(** Modelled from the spec: [bounds.extend([lat, lon])] of the map library.
    The library first makes a [LatLng] of the pair, and that constructor
    throws "Invalid LatLng object" when [isNaN] holds of a component; the
    specification is silent on this case.  An infinite component is
    folded in. *)
Definition extend (bounds : LatLngBounds) (latlon : number * number)
  : Result LatLngBounds :=
  if isNaN (fst latlon) || isNaN (snd latlon) then Throw InvalidLatLng
  else Ok (extendCorners bounds latlon).

(** Modelled from the spec: [bounds.isValid()], true once a point has been
    folded in. *)
Definition isValid (bounds : LatLngBounds) : bool :=
  match bounds with
  | Some _ => true
  | None => false
  end.

(** The pair [(bounds, hasValidBounds)] that the effect updates. *)
Definition MapState : Type := (LatLngBounds * bool)%type.

(** [const [lon, lat] = coord; if (typeof lat === "number" && typeof lon
    === "number") { bounds.extend([lat, lon]); hasValidBounds = true; }] *)
Definition extendCoord (st : MapState) (coord : JsVal) : Result MapState :=
  ' (lon, lat) <- destructure2 coord ;;
  match lat, lon with
  | JNum la, JNum lo =>
      bounds <- extend (fst st) (la, lo) ;; Ok (bounds, true)
  | _, _ => Ok st
  end.

(** [v.forEach (callback)] on a value that need not be an array. *)
Definition arrayForEach {S : Type} (callback : S -> JsVal -> Result S)
           (v : JsVal) (s : S) : Result S :=
  match v with
  | JArr l => forEach callback l s
  | _ => Throw TypeError
  end.

(** The callback of [geoJson.features.forEach] in [MapUpdater]. *)
Definition extendFeature (st : MapState) (feature : GeoJsonFeature)
  : Result MapState :=
  match geometry feature with
  | None => Ok st
  | Some g =>
      if truthy (coordinates g) then
        if String.eqb (type g) "Point" then
          extendCoord st (coordinates g)
        else if String.eqb (type g) "LineString" then
          arrayForEach extendCoord (coordinates g) st
        else if String.eqb (type g) "MultiLineString" then
          arrayForEach (fun s line => arrayForEach extendCoord line s)
                       (coordinates g) st
        else Ok st
      else Ok st
  end.

(** The effect of [MapUpdater] up to its last call: the bounds with which
    [map.fitBounds] is called, or [None] when it is not called and the
    viewport is left alone.  What the map library does inside [fitBounds]
    is not part of this effect. *)
Definition MapUpdater (geoJson : option GeoJsonData)
  : Result (option LatLngBounds) :=
  match geoJson with
  | None => Ok None
  | Some g =>
      if Nat.ltb 0 (List.length (features g)) then
        st <- forEach extendFeature (features g) (emptyBounds, false) ;;
        if snd st && isValid (fst st) then Ok (Some (fst st)) else Ok None
      else Ok None
  end.

(** ** Vocabulary of the specification *)

(** The four geometry kinds the summary starts from. *)
Definition recognizedKinds : list string :=
  [ "Point"; "LineString"; "Polygon"; "MultiLineString" ].

Definition hasKind (kind : string) (f : GeoJsonFeature) : bool :=
  match geometry f with
  | Some g => String.eqb (type g) kind
  | None => false
  end.

Definition isRecognized (f : GeoJsonFeature) : bool :=
  existsb (fun kind => hasKind kind f) recognizedKinds.

Definition countKind (kind : string) (fs : list GeoJsonFeature) : nat :=
  List.length (filter (hasKind kind) fs).

(** The keys and the total of the values of a summary. *)
Definition keys (o : ElementCount) : list string := map fst o.

Definition countValue (v : CountValue) : nat :=
  match v with
  | Count n => n
  | Text => 0
  end.

Definition sumValues (o : ElementCount) : nat :=
  fold_right (fun kv total => countValue (snd kv) + total) 0 o.

(** A line-shaped feature. *)
Definition isLine (f : GeoJsonFeature) : bool :=
  hasKind "LineString" f || hasKind "MultiLineString" f.

(** The length summed over every consecutive pair of a sequence, starting
    from [acc]. *)
Fixpoint pathFrom (acc : number) (l : list JsVal) : number :=
  match l with
  | [] => acc
  | coord1 :: rest =>
      match rest with
      | [] => acc
      | coord2 :: _ => pathFrom (addSegment acc coord1 coord2) rest
      end
  end.

(** [typeof v === "number"] *)
Definition typeofNumber (v : JsVal) : bool :=
  match v with
  | JNum _ => true
  | _ => false
  end.

(** A coordinate pair whose two leading components are numbers, read as
    [(lat, lon)]. *)
Definition numericPair (coord : JsVal) : option (number * number) :=
  match index coord 1, index coord 0 with
  | JNum lat, JNum lon => Some (lat, lon)
  | _, _ => None
  end.

Definition numericPairs (l : list JsVal) : list (number * number) :=
  flat_map (fun coord => match numericPair coord with
                         | Some p => [p]
                         | None => []
                         end) l.

Definition elements (v : JsVal) : list JsVal :=
  match v with
  | JArr l => l
  | _ => []
  end.

(** Every pair of a feature that [MapUpdater] reaches and that passes its
    check, in the order of the walk. *)
Definition featurePairs (f : GeoJsonFeature) : list (number * number) :=
  match geometry f with
  | None => []
  | Some g =>
      if truthy (coordinates g) then
        if String.eqb (type g) "Point" then numericPairs [coordinates g]
        else if String.eqb (type g) "LineString" then
          numericPairs (elements (coordinates g))
        else if String.eqb (type g) "MultiLineString" then
          flat_map (fun line => numericPairs (elements line))
                   (elements (coordinates g))
        else []
      else []
  end.

(** [sub] keeps some elements of [l], in their order. *)
Inductive Subsequence {A : Type} : list A -> list A -> Prop :=
| Subsequence_nil : Subsequence [] []
| Subsequence_keep (x : A) (sub l : list A) :
    Subsequence sub l -> Subsequence (x :: sub) (x :: l)
| Subsequence_drop (x : A) (sub l : list A) :
    Subsequence sub l -> Subsequence sub (x :: l).

(** What an item of the detail table owes to its feature. *)
Definition itemOfFeature (f : GeoJsonFeature) (d : DetailItem) : Prop :=
  exists g,
    geometry f = Some g /\
    (type g = "LineString" \/ type g = "MultiLineString") /\
    itemType d = type g /\
    itemName d = displayName (properties f).

(** The state of [MapUpdater] after folding the pairs [ps] in. *)
Definition foldPairs (st : MapState) (ps : list (number * number))
  : MapState :=
  (fold_left extendCorners ps (fst st),
   snd st || match ps with [] => false | _ :: _ => true end).

Definition isArray (v : JsVal) : bool :=
  match v with
  | JArr _ => true
  | _ => false
  end.

(** A feature on which [flat] is called has an array to call it on. *)
Definition flattenable (f : GeoJsonFeature) : bool :=
  match geometry f with
  | Some g =>
      if String.eqb (type g) "MultiLineString" then isArray (coordinates g)
      else true
  | None => true
  end.

(** ** The distance in exact arithmetic *)

Open Scope R_scope.

(** Degrees to radians, as the code writes it. *)
Definition radians (x : R) : R := x * PI / 180.

(** The quantity [a] and the result of [calculateDistance], their
    operations read over the reals. *)
Definition Rhaversine_a (lat1 lon1 lat2 lon2 : R) : R :=
  Rtrigo_def.sin (radians (lat2 - lat1) / 2)
  * Rtrigo_def.sin (radians (lat2 - lat1) / 2)
  + Rtrigo_def.cos (radians lat1) * Rtrigo_def.cos (radians lat2)
    * Rtrigo_def.sin (radians (lon2 - lon1) / 2)
    * Rtrigo_def.sin (radians (lon2 - lon1) / 2).

Definition Rdistance (lat1 lon1 lat2 lon2 : R) : R :=
  let a := Rhaversine_a lat1 lon1 lat2 lon2 in
  6371 * (2 * Ratan2 (R_sqrt.sqrt a) (R_sqrt.sqrt (1 - a))).

(** ** Sample features *)

(** A feature of the kind that the parser gives to a [MultiGeometry]
    placemark. *)
Definition geometryCollectionFeature : GeoJsonFeature :=
  {| geometry := Some {| type := "GeometryCollection";
                         coordinates := JUndefined |};
     properties := {| name := None |} |}.

Definition pair (lon lat : number) : JsVal := JArr [JNum lon; JNum lat].

Definition lineFeature (kind : string) (coords : JsVal)
           (label : option string) : GeoJsonFeature :=
  {| geometry := Some {| type := kind; coordinates := coords |};
     properties := {| name := label |} |}.

(** [[[0,0],[0,1]], [[0,1],[0,2]]] and its flattening. *)
Definition twoSubLines : list JsVal :=
  [ JArr [pair (Fin 0) (Fin 0); pair (Fin 0) (Fin 1)];
    JArr [pair (Fin 0) (Fin 1); pair (Fin 0) (Fin 2)] ].

Definition twoSubLinesFlat : list JsVal :=
  [ pair (Fin 0) (Fin 0); pair (Fin 0) (Fin 1);
    pair (Fin 0) (Fin 1); pair (Fin 0) (Fin 2) ].

(** A line string with the single point [[2,1]]. *)
Definition singlePointLine : GeoJsonFeature :=
  lineFeature "LineString" (JArr [pair (Fin 2) (Fin 1)]) (Some "dot").

(** A line string whose name is the empty string. *)
Definition namelessLine : GeoJsonFeature :=
  lineFeature "LineString"
              (JArr [pair (Fin 0) (Fin 0); pair (Fin 0) (Fin 1)]) (Some EmptyString).

(** A line whose first pair has an infinite longitude, one whose first
    pair lacks its latitude, and points with such coordinates. *)
Definition infinitePair : JsVal := pair (Inf false) (Fin 0).

Definition truncatedPair : JsVal := JArr [JNum (Fin 7)].

Definition infiniteLine : JsVal :=
  JArr [infinitePair; pair (Fin 0) (Fin 1)].

(** A line whose first pair has the longitude [NaN]. *)
Definition nanLine : JsVal :=
  JArr [pair NaN (Fin 0); pair (Fin 0) (Fin 1)].

Definition truncatedLine : list JsVal :=
  [pair (Fin 0) (Fin 0); truncatedPair; pair (Fin 0) (Fin 1)].

Definition pointFeature (coords : JsVal) : GeoJsonFeature :=
  {| geometry := Some {| type := "Point"; coordinates := coords |};
     properties := {| name := None |} |}.

(** A collection whose only coordinates are infinite. *)
Definition infinitePointCollection : GeoJsonData :=
  {| features := [pointFeature (pair (Inf false) (Inf true))] |}.

(** A collection with a point at longitude 20, latitude 10 and a line
    through a truncated pair. *)
Definition mixedCollection : GeoJsonData :=
  {| features := [ pointFeature (pair (Fin 20) (Fin 10));
                   lineFeature "LineString" (JArr truncatedLine) None ] |}.

(** ** The distance in binary64 *)

Module Binary64.

(** The functions of [Math] that the distance calls.  They belong to the
    host; ECMAScript leaves their precision to it and fixes these values:
    [Math.sin(+0)] is [+0], [Math.cos(+0)] is [1], and [Math.atan2(+0, x)]
    is [+0] for [x > 0]. *)
Record Math : Type := {
  sin : float -> float;
  cos : float -> float;
  atan2 : float -> float -> float;
  sin_zero : sin 0%float = 0%float;
  cos_zero : cos 0%float = 1%float;
  atan2_zero_one : atan2 0%float 1%float = 0%float
}.

(** [Math.PI] *)
Definition PI : float := 0x1.921fb54442d18p+1%float.

Definition calculateDistance (m : Math) (lat1 lon1 lat2 lon2 : float)
  : float :=
  let R := 6371%float in
  let dLat := (((lat2 - lat1) * PI) / 180)%float in
  let dLon := (((lon2 - lon1) * PI) / 180)%float in
  let a :=
    (sin m (dLat / 2) * sin m (dLat / 2) +
     cos m ((lat1 * PI) / 180) * cos m ((lat2 * PI) / 180) *
     sin m (dLon / 2) * sin m (dLon / 2))%float in
  let c :=
    (2 * atan2 m (PrimFloat.sqrt a) (PrimFloat.sqrt (1 - a)))%float in
  (R * c)%float.



End Binary64.

(** ** The rendered tables and the events of the page *)

Close Scope R_scope.

(** The rows of the summary table: [Object.entries(summary).map(([type,
    count]) => count > 0 && <tr>...</tr>)].  A text is not greater than 0. *)
Definition summaryRows (o : ElementCount) : list (string * nat) :=
  flat_map (fun kv => match snd kv with
                      | Count n => if Nat.ltb 0 n then [(fst kv, n)] else []
                      | Text => []
                      end) o.

(** What is shown for the detail table: [details.length > 0 ? <table> :
    <p>No line elements found to calculate lengths.</p>]. *)
Inductive DetailsView : Type :=
| DetailsTable (rows : list DetailItem)
| NoLineElements.

Definition renderDetails (details : option (list DetailItem))
  : option DetailsView :=
  match details with
  | None => None
  | Some d =>
      Some (if Nat.ltb 0 (List.length d) then DetailsTable d
            else NoLineElements)
  end.

(** The state of [App] before a file is chosen. *)
Definition initialState : AppState :=
  {| geoJson := None; summary := None; details := None |}.

(** What can happen to the page: a file has been read and parsed
    ([setGeoJson]), or one of the two buttons is pressed.  An exception
    thrown by a button handler leaves the state as it was. *)
Inductive Event : Type :=
| FileLoaded (geojson : GeoJsonData)
| ShowSummaryClicked
| ShowDetailsClicked.

Definition step (st : AppState) (e : Event) : AppState :=
  match e with
  | FileLoaded g =>
      {| geoJson := Some g; summary := summary st; details := details st |}
  | ShowSummaryClicked => showSummary st
  | ShowDetailsClicked =>
      match showDetails st with
      | Ok st' => st'
      | Throw _ => st
      end
  end.

Definition run (events : list Event) (st : AppState) : AppState :=
  fold_left step events st.

(** ** Further vocabulary *)

(** A feature that [showSummary] counts: a geometry with a kind. *)
Definition counted (f : GeoJsonFeature) : bool :=
  match geometry f with
  | Some g => negb (String.eqb (type g) EmptyString)
  | None => false
  end.

(** A feature whose kind is a name that objects inherit. *)
Definition collidesWithPrototype (f : GeoJsonFeature) : bool :=
  match geometry f with
  | Some g => existsb (String.eqb (type g)) objectPrototypeNames
  | None => false
  end.

(** What the summary holds under [key] when [c] features have that kind. *)
Definition summaryEntry (key : string) (c : nat) : option CountValue :=
  if existsb (String.eqb key) recognizedKinds then Some (Count c)
  else if Nat.eqb c 0 then None
  else if String.eqb key EmptyString then None
  else if String.eqb key "__proto__" then None
  else if existsb (String.eqb key) objectPrototypeNames then Some Text
  else Some (Count c).

(** A coordinate pair without what follows its two leading components
    (an altitude). *)
Definition leadingPair (coord : JsVal) : JsVal :=
  match coord with
  | JArr comps => JArr (firstn 2 comps)
  | _ => coord
  end.

(** The pairs of a line through the points [(lon, lat)], all finite. *)
Definition finiteLine (points : list (R * R)) : list JsVal :=
  map (fun p => pair (Fin (fst p)) (Fin (snd p))) points.

(** The pairs of a line through the points [(lon, lat)], of any numbers. *)
Definition numericLine (points : list (number * number)) : list JsVal :=
  map (fun p => pair (fst p) (snd p)) points.

(** A value that [const [x, y] = v] can take apart. *)
Definition iterable (v : JsVal) : bool :=
  match v with
  | JArr _ | JStr _ => true
  | _ => false
  end.

(** An array of values that can be taken apart. *)
Definition arrayOfPairs (v : JsVal) : bool :=
  match v with
  | JArr l => forallb iterable l
  | _ => false
  end.

(** A feature that [MapUpdater] walks without an exception. *)
Definition walkable (f : GeoJsonFeature) : bool :=
  match geometry f with
  | None => true
  | Some g =>
      if truthy (coordinates g) then
        if String.eqb (type g) "Point" then iterable (coordinates g)
        else if String.eqb (type g) "LineString" then
          arrayOfPairs (coordinates g)
        else if String.eqb (type g) "MultiLineString" then
          match coordinates g with
          | JArr lines => forallb arrayOfPairs lines
          | _ => false
          end
        else true
      else true
  end.

(** The order of two finite numbers. *)
Definition leq (x y : number) : Prop :=
  match x, y with
  | Fin a, Fin b => (a <= b)%R
  | _, _ => False
  end.

(** The rectangle of the corners holds the point [(lat, lon)]. *)
Definition inside (c : Corners) (p : number * number) : Prop :=
  leq (south c) (fst p) /\ leq (fst p) (north c) /\
  leq (west c) (snd p) /\ leq (snd p) (east c).

Definition finitePair (p : number * number) : bool :=
  isFinite (fst p) && isFinite (snd p).

(** A pair that the accumulator takes: neither component is [NaN]. *)
Definition acceptedPair (p : number * number) : bool :=
  negb (isNaN (fst p) || isNaN (snd p)).

Open Scope R_scope.

(** * Properties *)

(** ** Numbers *)

Lemma Rzero_false (r : R) : r <> 0 -> Rzero r = false.
Proof. intro H. unfold Rzero. destruct (Req_dec_T r 0); [contradiction | reflexivity]. Qed.

Lemma Rneg_false (r : R) : 0 <= r -> Rneg r = false.
Proof. intro H. unfold Rneg. destruct (Rlt_dec r 0); [lra | reflexivity]. Qed.

Lemma div_Fin (a b : R) : b <> 0 -> (Fin a / Fin b)%js = Fin (a / b).
Proof. intro H. simpl. now rewrite (Rzero_false b H). Qed.

Lemma toRadians_Fin (x : R) : toRadians (Fin x) = Fin (radians x).
Proof. unfold toRadians, Math_PI, radians. simpl mul. apply div_Fin. lra. Qed.

Lemma toRadiansDelta_Fin (x1 x2 : R) :
  toRadiansDelta (Fin x1) (Fin x2) = Fin (radians (x2 - x1)).
Proof. unfold toRadiansDelta, Math_PI, radians. simpl. rewrite Rzero_false by lra. reflexivity. Qed.

Lemma haversine_a_Fin (lat1 lon1 lat2 lon2 : R) :
  haversine_a (Fin lat1) (Fin lon1) (Fin lat2) (Fin lon2)
  = Fin (Rhaversine_a lat1 lon1 lat2 lon2).
Proof.
  unfold haversine_a. rewrite !toRadiansDelta_Fin, !toRadians_Fin.
  rewrite !div_Fin by lra. reflexivity.
Qed.

(** The half-angle identity behind the bounds on [a]. *)
Lemma sin_half_diff_sqr (u v : R) :
  Rtrigo_def.sin ((v - u) / 2) * Rtrigo_def.sin ((v - u) / 2)
  + Rtrigo_def.cos u * Rtrigo_def.cos v
  = Rtrigo_def.cos ((u + v) / 2) * Rtrigo_def.cos ((u + v) / 2).
Proof.
  replace ((v - u) / 2) with (v / 2 - u / 2) by lra.
  replace ((u + v) / 2) with (u / 2 + v / 2) by lra.
  replace (Rtrigo_def.cos u) with (Rtrigo_def.cos (2 * (u / 2))) by (f_equal; lra).
  replace (Rtrigo_def.cos v) with (Rtrigo_def.cos (2 * (v / 2))) by (f_equal; lra).
  rewrite sin_minus, cos_plus, !cos_2a. ring.
Qed.

Lemma radians_minus (x y : R) : radians (y - x) = radians y - radians x.
Proof. unfold radians. lra. Qed.

Lemma sqr_sin_bounds (x : R) : 0 <= Rtrigo_def.sin x * Rtrigo_def.sin x <= 1.
Proof.
  pose proof (sin2_cos2 x) as H. unfold Rsqr in H.
  pose proof (Rle_0_sqr (Rtrigo_def.sin x)) as Hs.
  pose proof (Rle_0_sqr (Rtrigo_def.cos x)) as Hc.
  unfold Rsqr in Hs, Hc. lra.
Qed.

Lemma sqr_cos_bounds (x : R) : 0 <= Rtrigo_def.cos x * Rtrigo_def.cos x <= 1.
Proof.
  pose proof (sin2_cos2 x) as H. unfold Rsqr in H.
  pose proof (Rle_0_sqr (Rtrigo_def.sin x)) as Hs.
  pose proof (Rle_0_sqr (Rtrigo_def.cos x)) as Hc.
  unfold Rsqr in Hs, Hc. lra.
Qed.

Lemma Rhaversine_a_bounds (lat1 lon1 lat2 lon2 : R) :
  0 <= Rhaversine_a lat1 lon1 lat2 lon2 <= 1.
Proof.
  unfold Rhaversine_a.
  set (p := Rtrigo_def.sin (radians (lat2 - lat1) / 2)).
  set (s := Rtrigo_def.sin (radians (lon2 - lon1) / 2)).
  set (cc := Rtrigo_def.cos (radians lat1) * Rtrigo_def.cos (radians lat2)).
  assert (Hp : 0 <= p * p <= 1) by apply sqr_sin_bounds.
  assert (Hs : 0 <= s * s <= 1) by apply sqr_sin_bounds.
  assert (Hq : 0 <= p * p + cc <= 1).
  { unfold p, cc. rewrite radians_minus, sin_half_diff_sqr. apply sqr_cos_bounds. }
  nra.
Qed.

Lemma calculateDistance_Fin (lat1 lon1 lat2 lon2 : R) :
  calculateDistance (Fin lat1) (Fin lon1) (Fin lat2) (Fin lon2)
  = Fin (Rdistance lat1 lon1 lat2 lon2).
Proof.
  unfold calculateDistance, Rdistance. rewrite haversine_a_Fin.
  pose proof (Rhaversine_a_bounds lat1 lon1 lat2 lon2) as [H0 H1].
  set (a := Rhaversine_a lat1 lon1 lat2 lon2) in *.
  unfold earthRadius. simpl.
  rewrite (Rneg_false a H0).
  rewrite (Rneg_false (1 + - a)) by lra.
  reflexivity.
Qed.

(** A non-finite argument makes the result [NaN]. *)
Lemma toRadiansDelta_not_finite (x1 x2 : number) :
  isFinite x1 = false \/ isFinite x2 = false ->
  JsNumber.sin (toRadiansDelta x1 x2 / Fin 2) = NaN.
Proof.
  assert (Hpi : Rzero PI = false) by (apply Rzero_false; pose proof PI_RGT_0; lra).
  unfold toRadiansDelta, Math_PI.
  destruct x1 as [a| |s], x2 as [b| |t]; simpl; intros [H|H];
    try discriminate; try reflexivity;
    try (destruct s); try (destruct t); simpl; rewrite ?Hpi; reflexivity.
Qed.

Lemma mul_NaN_r (x : number) : (x * NaN)%js = NaN.
Proof. destruct x; reflexivity. Qed.

Lemma add_NaN_r (x : number) : (x + NaN)%js = NaN.
Proof. destruct x; reflexivity. Qed.

Lemma haversine_a_not_finite (lat1 lon1 lat2 lon2 : number) :
  isFinite lat1 && isFinite lon1 && isFinite lat2 && isFinite lon2 = false ->
  haversine_a lat1 lon1 lat2 lon2 = NaN.
Proof.
  intro H. unfold haversine_a.
  destruct (isFinite lat1) eqn:E1.
  2:{ rewrite (toRadiansDelta_not_finite lat1 lat2) by now left. reflexivity. }
  destruct (isFinite lat2) eqn:E3.
  2:{ rewrite (toRadiansDelta_not_finite lat1 lat2) by now right. reflexivity. }
  assert (H' : isFinite lon1 = false \/ isFinite lon2 = false).
  { destruct (isFinite lon1); [right | left]; simpl in H; congruence. }
  rewrite (toRadiansDelta_not_finite lon1 lon2 H').
  rewrite !mul_NaN_r, add_NaN_r. reflexivity.
Qed.

Lemma calculateDistance_not_finite (lat1 lon1 lat2 lon2 : number) :
  isFinite lat1 && isFinite lon1 && isFinite lat2 && isFinite lon2 = false ->
  calculateDistance lat1 lon1 lat2 lon2 = NaN.
Proof.
  intro H. unfold calculateDistance.
  rewrite (haversine_a_not_finite _ _ _ _ H). reflexivity.
Qed.


Lemma Rhaversine_a_same (lat lon : R) : Rhaversine_a lat lon lat lon = 0.
Proof.
  unfold Rhaversine_a, radians.
  replace ((lat - lat) * PI / 180 / 2) with 0 by lra.
  replace ((lon - lon) * PI / 180 / 2) with 0 by lra.
  rewrite sin_0. ring.
Qed.

Lemma Ratan2_0_1 : Ratan2 0 1 = 0.
Proof.
  unfold Ratan2. destruct (Rlt_dec 0 1); [| lra].
  replace (0 / 1) with 0 by lra. apply atan_0.
Qed.





(** ** Distance engine *)

Lemma Rdistance_same (lat lon : R) : Rdistance lat lon lat lon = 0.
Proof.
  unfold Rdistance. rewrite Rhaversine_a_same.
  rewrite Rminus_0_r, sqrt_0, sqrt_1, Ratan2_0_1. ring.
Qed.







Close Scope R_scope.

(** ** Summary builder *)

Section Summary.

Lemma ownProperty_replaceOwn (o : ElementCount) (k k' : string)
      (v w : CountValue) :
  ownProperty o k = Some w ->
  ownProperty (replaceOwn o k v) k'
  = if String.eqb k k' then Some v else ownProperty o k'.
Proof.
  induction o as [|[k0 u] rest IH]; simpl; [discriminate |].
  destruct (String.eqb k0 k) eqn:E0; simpl.
  - intros _. apply String.eqb_eq in E0. subst k0.
    destruct (String.eqb k k'); reflexivity.
  - intro H. destruct (String.eqb k0 k') eqn:E1.
    + apply String.eqb_eq in E1. subst k0.
      rewrite String.eqb_sym, E0. reflexivity.
    + now apply IH.
Qed.

Lemma ownProperty_app_new (o : ElementCount) (k k' : string) (v : CountValue) :
  ownProperty o k = None ->
  ownProperty (o ++ [(k, v)])%list k'
  = if String.eqb k k' then Some v else ownProperty o k'.
Proof.
  induction o as [|[k0 u] rest IH]; simpl.
  - reflexivity.
  - destruct (String.eqb k0 k) eqn:E0; [discriminate |]. intro H.
    destruct (String.eqb k0 k') eqn:E1.
    + apply String.eqb_eq in E1. subst k0.
      rewrite String.eqb_sym, E0. reflexivity.
    + now apply IH.
Qed.

Lemma ownProperty_insertIndex (o : ElementCount) (k k' : string) (n : N)
      (v : CountValue) :
  ownProperty o k = None ->
  ownProperty (insertIndex o k n v) k'
  = if String.eqb k k' then Some v else ownProperty o k'.
Proof.
  induction o as [|[k0 u] rest IH]; simpl.
  - reflexivity.
  - destruct (String.eqb k0 k) eqn:E0; [discriminate |]. intro H.
    destruct (arrayIndex k0) as [m|]; [destruct (N.ltb m n) |];
      simpl; try reflexivity.
    destruct (String.eqb k0 k') eqn:E1.
    + apply String.eqb_eq in E1. subst k0.
      rewrite String.eqb_sym, E0. reflexivity.
    + now apply IH.
Qed.

Lemma ownProperty_setOwn (o : ElementCount) (k k' : string) (v : CountValue) :
  ownProperty (setOwn o k v) k'
  = if String.eqb k k' then Some v else ownProperty o k'.
Proof.
  unfold setOwn, addOwn. destruct (ownProperty o k) as [w|] eqn:E.
  - now apply ownProperty_replaceOwn with (w := w).
  - destruct (arrayIndex k).
    + now apply ownProperty_insertIndex.
    + now apply ownProperty_app_new.
Qed.

Variable kind : string.
Hypothesis kind_not_empty : kind <> EmptyString.
Hypothesis kind_not_proto : kind <> "__proto__".

Lemma hasKind_type (f : GeoJsonFeature) (g : Geometry) :
  geometry f = Some g -> hasKind kind f = String.eqb (type g) kind.
Proof. intro H. unfold hasKind. now rewrite H. Qed.

(** One feature changes the entry of [kind] only when it has that kind. *)
Lemma countFeature_other (o : ElementCount) (f : GeoJsonFeature) :
  hasKind kind f = false ->
  ownProperty (countFeature o f) kind = ownProperty o kind.
Proof.
  intro H. unfold countFeature, setProperty.
  destruct (geometry f) as [g|] eqn:G; [| reflexivity].
  rewrite (hasKind_type f g G) in H.
  destruct (negb (String.eqb (type g) EmptyString)); [| reflexivity].
  destruct (String.eqb (type g) "__proto__"); [reflexivity |].
  now rewrite ownProperty_setOwn, H.
Qed.

Lemma countFeature_same (o : ElementCount) (f : GeoJsonFeature) :
  hasKind kind f = true ->
  ownProperty (countFeature o f) kind
  = Some (orZeroPlusOne (getProperty o kind)).
Proof.
  intro H. unfold countFeature, setProperty. unfold hasKind in H.
  destruct (geometry f) as [g|]; [| discriminate].
  apply String.eqb_eq in H. rewrite H.
  destruct (String.eqb kind EmptyString) eqn:E; [now apply String.eqb_eq in E |].
  destruct (String.eqb kind "__proto__") eqn:E';
    [now apply String.eqb_eq in E' |].
  simpl. now rewrite ownProperty_setOwn, String.eqb_refl.
Qed.

(** A key that holds a count keeps counting the features of its kind. *)
Lemma fold_countFeature_present (fs : list GeoJsonFeature) :
  forall (o : ElementCount) (n : nat),
    ownProperty o kind = Some (Count n) ->
    ownProperty (fold_left countFeature fs o) kind
    = Some (Count (n + countKind kind fs)).
Proof.
  induction fs as [|f fs IH]; intros o n Ho; simpl.
  - unfold countKind. simpl. now rewrite Nat.add_0_r.
  - unfold countKind. simpl. destruct (hasKind kind f) eqn:E.
    + rewrite (IH (countFeature o f) (n + 1)).
      * unfold countKind. simpl. do 2 f_equal. lia.
      * rewrite (countFeature_same o f E). unfold getProperty.
        now rewrite Ho.
    + apply IH. now rewrite (countFeature_other o f E).
Qed.

Hypothesis kind_not_inherited : ~ In kind objectPrototypeNames.

Lemma getProperty_missing (o : ElementCount) :
  ownProperty o kind = None -> getProperty o kind = Missing.
Proof.
  intro H. unfold getProperty. rewrite H.
  destruct (existsb (String.eqb kind) objectPrototypeNames) eqn:E;
    [| reflexivity].
  apply existsb_exists in E. destruct E as (x & Hin & Hx).
  apply String.eqb_eq in Hx. subst x. contradiction.
Qed.

(** A key that is absent appears with the first feature of its kind. *)
Lemma fold_countFeature_absent (fs : list GeoJsonFeature) :
  forall o : ElementCount,
    ownProperty o kind = None ->
    ownProperty (fold_left countFeature fs o) kind
    = if Nat.eqb (countKind kind fs) 0 then None
      else Some (Count (countKind kind fs)).
Proof.
  induction fs as [|f fs IH]; intros o Ho; simpl.
  - exact Ho.
  - unfold countKind. simpl. destruct (hasKind kind f) eqn:E.
    + rewrite (fold_countFeature_present fs (countFeature o f) 1).
      * reflexivity.
      * rewrite (countFeature_same o f E).
        now rewrite (getProperty_missing o Ho).
    + apply IH. now rewrite (countFeature_other o f E).
Qed.

End Summary.

Lemma hasKind_exclusive (k1 k2 : string) (f : GeoJsonFeature) :
  k1 <> k2 -> hasKind k1 f = true -> hasKind k2 f = false.
Proof.
  unfold hasKind. intros Hne H1.
  destruct (geometry f) as [g|]; [| reflexivity].
  apply String.eqb_eq in H1. apply String.eqb_neq. congruence.
Qed.

Lemma countKind_recognized (fs : list GeoJsonFeature) :
  countKind "Point" fs + countKind "LineString" fs
  + countKind "Polygon" fs + countKind "MultiLineString" fs
  = List.length (filter isRecognized fs).
Proof.
  unfold countKind.
  induction fs as [|f fs IH]; [reflexivity |].
  simpl filter.
  assert (H : isRecognized f
              = hasKind "Point" f || hasKind "LineString" f
                || hasKind "Polygon" f || hasKind "MultiLineString" f).
  { unfold isRecognized. simpl. now rewrite orb_false_r, !orb_assoc. }
  rewrite H.
  destruct (hasKind "Point" f) eqn:E1.
  { rewrite !(hasKind_exclusive "Point" _ f) by (discriminate || assumption).
    simpl. lia. }
  destruct (hasKind "LineString" f) eqn:E2.
  { rewrite !(hasKind_exclusive "LineString" _ f) by (discriminate || assumption).
    simpl. lia. }
  destruct (hasKind "Polygon" f) eqn:E3.
  { rewrite !(hasKind_exclusive "Polygon" _ f) by (discriminate || assumption).
    simpl. lia. }
  destruct (hasKind "MultiLineString" f); simpl; lia.
Qed.

Lemma ownProperty_initial_absent (kind : string) :
  ~ In kind recognizedKinds -> ownProperty initialElementCount kind = None.
Proof.
  intro H. unfold initialElementCount. cbn [ownProperty].
  repeat match goal with
         | |- context [String.eqb ?k kind] =>
             let E := fresh "E" in
             destruct (String.eqb k kind) eqn:E;
             [apply String.eqb_eq in E; subst kind; exfalso; apply H;
              simpl; tauto | clear E]
         end.
  reflexivity.
Qed.

(** C1, as the code has it.  The summary always holds the four fixed keys,
    each with the number of features of that kind, so the values under
    these four keys sum to the number of features with a non-null geometry
    of a recognised kind.  A feature with another, non-empty kind is not
    skipped: unless the kind is a name that objects inherit, it is counted
    under a key of its own. *)
Theorem elementCountOf_counts (fs : list GeoJsonFeature) :
  let o := elementCountOf fs in
  (ownProperty o "Point" = Some (Count (countKind "Point" fs)) /\
   ownProperty o "LineString" = Some (Count (countKind "LineString" fs)) /\
   ownProperty o "Polygon" = Some (Count (countKind "Polygon" fs)) /\
   ownProperty o "MultiLineString"
   = Some (Count (countKind "MultiLineString" fs))) /\
  countKind "Point" fs + countKind "LineString" fs
  + countKind "Polygon" fs + countKind "MultiLineString" fs
  = List.length (filter isRecognized fs) /\
  (forall kind : string,
      kind <> EmptyString -> ~ In kind recognizedKinds ->
      ~ In kind objectPrototypeNames ->
      ownProperty o kind
      = if Nat.eqb (countKind kind fs) 0 then None
        else Some (Count (countKind kind fs))).
Proof.
  unfold elementCountOf. cbv zeta. repeat split.
  - apply (fold_countFeature_present "Point") with (n := 0);
      try discriminate; reflexivity.
  - apply (fold_countFeature_present "LineString") with (n := 0);
      try discriminate; reflexivity.
  - apply (fold_countFeature_present "Polygon") with (n := 0);
      try discriminate; reflexivity.
  - apply (fold_countFeature_present "MultiLineString") with (n := 0);
      try discriminate; reflexivity.
  - apply countKind_recognized.
  - intros kind Hne Hnr Hni.
    apply fold_countFeature_absent; try assumption.
    + intros ->. apply Hni. simpl. tauto.
    + now apply ownProperty_initial_absent.
Qed.

Lemma elementCountOf_counts_witness :
  ownProperty (elementCountOf [geometryCollectionFeature]) "GeometryCollection"
  = Some (Count 1).
Proof.
  destruct (elementCountOf_counts [geometryCollectionFeature])
    as (_ & _ & H).
  apply (H "GeometryCollection").
  - discriminate.
  - simpl. intros [H1|[H1|[H1|[H1|[]]]]]; discriminate.
  - simpl. intuition discriminate.
Defined.

(** C1 as stated fails: a feature of an unrecognised kind adds a fifth key
    and its count to the summary. *)
Lemma summary_counts_unrecognized_kind :
  sumValues (elementCountOf [geometryCollectionFeature]) = 1 /\
  List.length (filter isRecognized [geometryCollectionFeature]) = 0 /\
  keys (elementCountOf [geometryCollectionFeature])
  = [ "Point"; "LineString"; "Polygon"; "MultiLineString";
      "GeometryCollection" ] /\
  sumValues (elementCountOf [geometryCollectionFeature])
  <> List.length (filter isRecognized [geometryCollectionFeature]) /\
  keys (elementCountOf [geometryCollectionFeature]) <> recognizedKinds.
Proof. repeat split; discriminate. Qed.

(** ** Detail builder *)

(** The indexed [for] loop visits the consecutive pairs of the array. *)
Lemma loop_pathFrom (l pre : list JsVal) (acc : number) :
  fold_left
    (fun length i =>
       addSegment length (nth i (pre ++ l) JUndefined)
                  (nth (i + 1) (pre ++ l) JUndefined))
    (seq (List.length pre) (List.length l - 1)) acc
  = pathFrom acc l.
Proof.
  revert pre acc. induction l as [|c1 rest IH]; intros pre acc.
  - reflexivity.
  - destruct rest as [|c2 rest'].
    + reflexivity.
    + replace (List.length (c1 :: c2 :: rest') - 1)
        with (S (List.length (c2 :: rest') - 1))
        by (simpl List.length; lia).
      cbn [seq fold_left].
      rewrite nth_middle.
      replace (List.length pre + 1) with (List.length (pre ++ [c1]))
        by (rewrite last_length; lia).
      replace (pre ++ c1 :: c2 :: rest')%list
        with ((pre ++ [c1]) ++ c2 :: rest')%list
        by (now rewrite <- app_assoc).
      rewrite nth_middle.
      replace (S (List.length pre)) with (List.length (pre ++ [c1]))
        by (now rewrite last_length).
      rewrite IH. reflexivity.
Qed.

Lemma lineLength_pathFrom (l : list JsVal) :
  lineLength (JArr l) = pathFrom (Fin 0%R) l.
Proof. exact (loop_pathFrom l [] (Fin 0%R)). Qed.

Lemma flat1_arrays (subs : list (list JsVal)) :
  flat1 (map JArr subs) = List.concat subs.
Proof.
  unfold flat1. induction subs as [|l subs IH]; simpl; [| rewrite IH];
    reflexivity.
Qed.

(** The segment that joins the end of one run of pairs to the start of the
    next is part of the sum. *)
Lemma pathFrom_joined (l1 l2 : list JsVal) (x y : JsVal) :
  forall acc : number,
    pathFrom acc (l1 ++ x :: y :: l2)
    = pathFrom (addSegment (pathFrom acc (l1 ++ [x])) x y) (y :: l2).
Proof.
  induction l1 as [|a r IH]; intro acc.
  - reflexivity.
  - destruct r as [|b r'].
    + exact (IH (addSegment acc a x)).
    + exact (IH (addSegment acc a b)).
Qed.

(** What [showDetails] pushes for a line-shaped feature once the
    coordinates of its loop are known. *)
Lemma detailOf_line (f : GeoJsonFeature) (g : Geometry) (coords : JsVal) :
  geometry f = Some g ->
  type g = "LineString" \/ type g = "MultiLineString" ->
  lineCoordinates g = Ok coords ->
  detailOf f
  = Ok (if negb (truthy coords) || lengthLt coords 2 then None
        else Some {| itemType := type g;
                     itemLength := toFixed (lineLength coords) 2;
                     itemName := displayName (properties f) |}).
Proof.
  intros Hg Hk Hc. unfold detailOf. rewrite Hg, Hc.
  destruct Hk as [-> | ->]; simpl;
    destruct (negb (truthy coords) || lengthLt coords 2); reflexivity.
Qed.

Lemma twoSubLines_length :
  lineLength (JArr twoSubLinesFlat)
  = (calculateDistance (Fin 0%R) (Fin 0%R) (Fin 1%R) (Fin 0%R)
     + calculateDistance (Fin 1%R) (Fin 0%R) (Fin 2%R) (Fin 0%R))%js.
Proof.
  rewrite lineLength_pathFrom.
  cbv [pathFrom twoSubLinesFlat pair addSegment truthy lengthLt jsLength
       index nth negb orb List.length Nat.ltb Nat.leb].
  rewrite !calculateDistance_Fin. cbn [add]. f_equal.
  rewrite Rdistance_same. ring.
Qed.

(** C3.  A [MultiLineString] whose coordinates are the array [lines] is
    measured over [lines] flattened one level: the sub-lines are
    concatenated, the length is summed over every consecutive pair of the
    flattened sequence, the pair that joins two sub-lines included.  The
    sub-lines [[[0,0],[0,1]], [[0,1],[0,2]]] flatten to
    [[0,0],[0,1],[0,1],[0,2]] and their length is the sum of the two
    distances of one degree of latitude. *)
Theorem multiLineString_flattened_length :
  (forall (f : GeoJsonFeature) (g : Geometry) (lines : list JsVal),
      geometry f = Some g ->
      type g = "MultiLineString" ->
      coordinates g = JArr lines ->
      lineCoordinates g = Ok (JArr (flat1 lines)) /\
      detailOf f
      = Ok (if Nat.ltb (List.length (flat1 lines)) 2 then None
            else Some {| itemType := "MultiLineString";
                         itemLength :=
                           toFixed (pathFrom (Fin 0%R) (flat1 lines)) 2;
                         itemName := displayName (properties f) |})) /\
  (forall subs : list (list JsVal), flat1 (map JArr subs) = List.concat subs) /\
  (forall (l1 l2 : list JsVal) (x y : JsVal) (acc : number),
      pathFrom acc ((l1 ++ [x]) ++ y :: l2)
      = pathFrom (addSegment (pathFrom acc (l1 ++ [x])) x y) (y :: l2)) /\
  flat1 twoSubLines = twoSubLinesFlat /\
  lineLength (JArr twoSubLinesFlat)
  = (calculateDistance (Fin 0%R) (Fin 0%R) (Fin 1%R) (Fin 0%R)
     + calculateDistance (Fin 1%R) (Fin 0%R) (Fin 2%R) (Fin 0%R))%js.
Proof.
  split; [| split; [| split; [| split]]].
  - intros f g lines Hg Hk Hc.
    assert (Hl : lineCoordinates g = Ok (JArr (flat1 lines))).
    { unfold lineCoordinates. now rewrite Hk, Hc. }
    split; [exact Hl |].
    rewrite (detailOf_line f g _ Hg (or_intror Hk) Hl), Hk.
    rewrite lineLength_pathFrom. reflexivity.
  - exact flat1_arrays.
  - intros l1 l2 x y acc. rewrite <- app_assoc. apply pathFrom_joined.
  - reflexivity.
  - exact twoSubLines_length.
Qed.

Lemma multiLineString_flattened_length_witness :
  detailOf (lineFeature "MultiLineString" (JArr twoSubLines) None)
  = Ok (Some {| itemType := "MultiLineString";
                itemLength :=
                  toFixed (pathFrom (Fin 0%R) twoSubLinesFlat) 2;
                itemName := "Unnamed" |}).
Proof.
  destruct multiLineString_flattened_length as [H _].
  destruct (H (lineFeature "MultiLineString" (JArr twoSubLines) None)
              {| type := "MultiLineString"; coordinates := JArr twoSubLines |}
              twoSubLines eq_refl eq_refl eq_refl) as [_ Hd].
  exact Hd.
Defined.

(** C7.  A line-shaped feature whose loop coordinates are an array of fewer
    than two pairs pushes nothing; the line string [[2,1]] gives no item. *)
Theorem detailOf_fewer_than_two_pairs :
  (forall (f : GeoJsonFeature) (g : Geometry) (l : list JsVal),
      geometry f = Some g ->
      type g = "LineString" \/ type g = "MultiLineString" ->
      lineCoordinates g = Ok (JArr l) ->
      List.length l < 2 ->
      detailOf f = Ok None /\
      forall data : list DetailItem, pushDetail data f = Ok data) /\
  detailOf singlePointLine = Ok None /\
  detailedDataOf [singlePointLine] = Ok [].
Proof.
  split; [| split; reflexivity].
  intros f g l Hg Hk Hc Hlen.
  assert (Hd : detailOf f = Ok None).
  { rewrite (detailOf_line f g _ Hg Hk Hc).
    unfold lengthLt. simpl.
    apply Nat.ltb_lt in Hlen. now rewrite Hlen. }
  split; [exact Hd |].
  intro data. unfold pushDetail. now rewrite Hd.
Qed.

Lemma detailOf_fewer_than_two_pairs_witness :
  detailOf singlePointLine = Ok None /\
  forall data : list DetailItem, pushDetail data singlePointLine = Ok data.
Proof.
  destruct detailOf_fewer_than_two_pairs as [H _].
  apply (H singlePointLine
           {| type := "LineString";
              coordinates := JArr [pair (Fin 2%R) (Fin 1%R)] |}
           [pair (Fin 2%R) (Fin 1%R)]).
  - reflexivity.
  - left. reflexivity.
  - reflexivity.
  - simpl. lia.
Defined.

(** An item is pushed only for a line-shaped feature, with that feature's
    kind and display name. *)
Lemma detailOf_item (f : GeoJsonFeature) (d : DetailItem) :
  detailOf f = Ok (Some d) -> itemOfFeature f d.
Proof.
  unfold detailOf, itemOfFeature.
  destruct (geometry f) as [g|]; [| discriminate].
  destruct (String.eqb (type g) EmptyString); [discriminate |].
  destruct (String.eqb (type g) "LineString") eqn:E1;
    destruct (String.eqb (type g) "MultiLineString") eqn:E2; simpl;
    try discriminate;
    (destruct (lineCoordinates g) as [coords|]; simpl; [| discriminate];
     destruct (negb (truthy coords) || lengthLt coords 2); [discriminate |];
     intro H; injection H as <-; exists g; simpl;
     apply String.eqb_eq in E1 || apply String.eqb_eq in E2; auto).
Qed.

Lemma detailOf_flattenable (f : GeoJsonFeature) :
  flattenable f = true -> exists item, detailOf f = Ok item.
Proof.
  unfold flattenable, detailOf, lineCoordinates.
  destruct (geometry f) as [g|]; [| now eexists].
  destruct (String.eqb (type g) EmptyString); [now eexists |].
  destruct (String.eqb (type g) "LineString") eqn:E1.
  - intros _. simpl.
    destruct (negb (truthy (coordinates g)) || lengthLt (coordinates g) 2);
      now eexists.
  - destruct (String.eqb (type g) "MultiLineString"); [| now eexists].
    destruct (coordinates g) as [| | | |lines]; try discriminate. intros _.
    simpl.
    destruct (lengthLt (JArr (flat1 lines)) 2); now eexists.
Qed.

Lemma forEach_pushDetail (fs : list GeoJsonFeature) :
  forall acc ds : list DetailItem,
    forEach pushDetail fs acc = Ok ds ->
    exists (src : list GeoJsonFeature) (new : list DetailItem),
      ds = (acc ++ new)%list /\
      Subsequence src fs /\
      Forall2 (fun f d => detailOf f = Ok (Some d)) src new.
Proof.
  induction fs as [|f fs IH]; intros acc ds H; simpl in H.
  - injection H as <-. exists [], []. rewrite app_nil_r.
    repeat split; constructor.
  - unfold pushDetail at 1 in H.
    destruct (detailOf f) as [[d|]|] eqn:E; simpl in H; [| | discriminate].
    + destruct (IH _ _ H) as (src & new & -> & Hs & Hf).
      exists (f :: src), (d :: new). rewrite <- app_assoc.
      repeat split; constructor; assumption.
    + destruct (IH _ _ H) as (src & new & -> & Hs & Hf).
      exists src, new. repeat split; [constructor |]; assumption.
Qed.

Lemma forEach_pushDetail_total (fs : list GeoJsonFeature) :
  forallb flattenable fs = true ->
  forall acc : list DetailItem, exists ds, forEach pushDetail fs acc = Ok ds.
Proof.
  induction fs as [|f fs IH]; intros H acc; simpl.
  - now eexists.
  - simpl in H. apply andb_true_iff in H as [Hf Hfs].
    destruct (detailOf_flattenable f Hf) as [item Hi].
    unfold pushDetail at 1. rewrite Hi. simpl. apply IH. exact Hfs.
Qed.

(** C8.  The detail table is made of items of line-shaped features only
    (geometry present, kind [LineString] or [MultiLineString]), one per
    source feature, in the order of these features in the collection; and a
    table is produced whenever [flat] has an array to work on. *)
Theorem detailedDataOf_lines_in_order :
  (forall (fs : list GeoJsonFeature) (ds : list DetailItem),
      detailedDataOf fs = Ok ds ->
      exists src : list GeoJsonFeature,
        Subsequence src fs /\
        Forall (fun f => isLine f = true) src /\
        Forall2 (fun f d => detailOf f = Ok (Some d)) src ds /\
        Forall2 itemOfFeature src ds) /\
  (forall fs : list GeoJsonFeature,
      forallb flattenable fs = true ->
      exists ds, detailedDataOf fs = Ok ds).
Proof.
  split.
  - intros fs ds H.
    destruct (forEach_pushDetail fs [] ds H) as (src & new & -> & Hs & Hf).
    exists src. simpl. split; [exact Hs |].
    assert (Hi : Forall2 itemOfFeature src new).
    { clear Hs H. induction Hf; constructor; auto using detailOf_item. }
    repeat split; try assumption.
    clear Hs H Hf. induction Hi as [|f d src new (g & Hg & Hk & _) _ IH];
      constructor; [| exact IH].
    unfold isLine, hasKind. rewrite Hg.
    destruct Hk as [-> | ->]; reflexivity.
  - intros fs H. apply (forEach_pushDetail_total fs H).
Qed.

Lemma detailedDataOf_lines_in_order_witness :
  exists src : list GeoJsonFeature,
    Subsequence src [geometryCollectionFeature; namelessLine; singlePointLine] /\
    Forall (fun f => isLine f = true) src /\
    Forall2 (fun f d => detailOf f = Ok (Some d)) src
            [ {| itemType := "LineString";
                 itemLength :=
                   toFixed (lineLength
                              (JArr [pair (Fin 0%R) (Fin 0%R);
                                     pair (Fin 0%R) (Fin 1%R)])) 2;
                 itemName := "Unnamed" |} ] /\
    Forall2 itemOfFeature src
            [ {| itemType := "LineString";
                 itemLength :=
                   toFixed (lineLength
                              (JArr [pair (Fin 0%R) (Fin 0%R);
                                     pair (Fin 0%R) (Fin 1%R)])) 2;
                 itemName := "Unnamed" |} ].
Proof.
  destruct detailedDataOf_lines_in_order as [H _].
  apply (H [geometryCollectionFeature; namelessLine; singlePointLine]).
  reflexivity.
Defined.

(** C10.  An item pushed for a feature whose name is the empty string
    carries the name ["Unnamed"], as does one whose name is absent. *)
Theorem detailOf_empty_name_unnamed (f : GeoJsonFeature) (d : DetailItem) :
  detailOf f = Ok (Some d) ->
  name (properties f) = Some EmptyString \/ name (properties f) = None ->
  itemName d = "Unnamed".
Proof.
  intros H Hn. destruct (detailOf_item f d H) as (g & _ & _ & _ & ->).
  unfold displayName. destruct Hn as [-> | ->]; reflexivity.
Qed.

Lemma detailOf_empty_name_unnamed_witness :
  name (properties namelessLine) = Some EmptyString /\
  exists d, detailOf namelessLine = Ok (Some d) /\ itemName d = "Unnamed".
Proof.
  split; [reflexivity |].
  eexists. split; [reflexivity |].
  eapply (detailOf_empty_name_unnamed namelessLine).
  - reflexivity.
  - left. reflexivity.
Defined.

(** ** Pairs that are not numbers *)

Lemma numericPair_typeof (c : JsVal) :
  typeofNumber (index c 0) && typeofNumber (index c 1) = false <->
  numericPair c = None.
Proof.
  unfold numericPair.
  destruct (index c 0), (index c 1); simpl; split; intro H;
    try reflexivity; discriminate.
Qed.

Lemma addSegment_skip_l (acc : number) (c x : JsVal) :
  numericPair c = None -> addSegment acc c x = acc.
Proof.
  unfold numericPair, addSegment. intro H.
  destruct (negb (truthy c) || negb (truthy x)
            || lengthLt c 2 || lengthLt x 2); [reflexivity |].
  destruct (index c 0), (index c 1); try reflexivity; discriminate.
Qed.

Lemma addSegment_skip_r (acc : number) (x c : JsVal) :
  numericPair c = None -> addSegment acc x c = acc.
Proof.
  unfold numericPair, addSegment. intro H.
  destruct (negb (truthy x) || negb (truthy c)
            || lengthLt x 2 || lengthLt c 2); [reflexivity |].
  destruct (index x 0), (index x 1); try reflexivity;
    destruct (index c 0), (index c 1); try reflexivity; discriminate.
Qed.

(** Both segments that touch a skipped pair leave the length as it is, and
    the loop goes on with the pairs after it. *)
Lemma pathFrom_skip (c : JsVal) (l2 : list JsVal) :
  numericPair c = None ->
  forall (l1 : list JsVal) (acc : number),
    pathFrom acc (l1 ++ c :: l2) = pathFrom (pathFrom acc l1) l2.
Proof.
  intro H.
  assert (Hhead : forall acc, pathFrom acc (c :: l2) = pathFrom acc l2).
  { intro acc. destruct l2 as [|y l2']; [reflexivity |].
    cbn [pathFrom]. now rewrite addSegment_skip_l. }
  induction l1 as [|a r IH]; intro acc.
  - exact (Hhead acc).
  - destruct r as [|b r'].
    + cbn [app pathFrom]. rewrite addSegment_skip_r by assumption.
      exact (Hhead acc).
    + exact (IH (addSegment acc a b)).
Qed.

Lemma forEach_app {S A : Type} (callback : S -> A -> Result S)
      (l1 l2 : list A) :
  forall s : S,
    forEach callback (l1 ++ l2) s
    = (s' <- forEach callback l1 s ;; forEach callback l2 s').
Proof.
  induction l1 as [|x l1 IH]; intro s; simpl.
  - reflexivity.
  - destruct (callback s x) as [s'|]; simpl; [apply IH | reflexivity].
Qed.

Lemma extendCoord_skip (st : MapState) (comps : list JsVal) :
  numericPair (JArr comps) = None -> extendCoord st (JArr comps) = Ok st.
Proof.
  unfold numericPair, extendCoord, destructure2. cbn [bind]. intro H.
  destruct (index (JArr comps) 1), (index (JArr comps) 0);
    try reflexivity; discriminate.
Qed.

(** C2, as the code has it.  A coordinate pair, an array one of whose two
    leading components is not of type number (absent, [undefined], [null],
    a string), is skipped: the segments that touch it leave the length
    unchanged and the loop continues with the following pairs, and
    [MapUpdater] leaves the bounds alone and walks on.  A pair of two
    numbers is not skipped: its segments are measured whatever the numbers,
    and [MapUpdater] folds it in when neither number is [NaN], an infinite
    one included. *)
Theorem non_number_pair_skipped :
  (forall comps : list JsVal,
      typeofNumber (index (JArr comps) 0)
      && typeofNumber (index (JArr comps) 1) = false ->
      (forall (acc : number) (x : JsVal),
          addSegment acc (JArr comps) x = acc /\
          addSegment acc x (JArr comps) = acc) /\
      (forall l1 l2 : list JsVal,
          lineLength (JArr (l1 ++ JArr comps :: l2))
          = pathFrom (lineLength (JArr l1)) l2) /\
      (forall st : MapState, extendCoord st (JArr comps) = Ok st) /\
      (forall (l1 l2 : list JsVal) (st : MapState),
          forEach extendCoord (l1 ++ JArr comps :: l2) st
          = forEach extendCoord (l1 ++ l2) st)) /\
  (forall (lon1 lat1 lon2 lat2 acc : number),
      addSegment acc (pair lon1 lat1) (pair lon2 lat2)
      = (acc + calculateDistance lat1 lon1 lat2 lon2)%js) /\
  (forall (lon lat : number) (st : MapState),
      isNaN lon = false -> isNaN lat = false ->
      extendCoord st (pair lon lat)
      = Ok (extendCorners (fst st) (lat, lon), true)).
Proof.
  split; [| split; [reflexivity |]].
  2:{ intros lon lat st Hlon Hlat.
      unfold extendCoord, pair, destructure2, extend.
      cbn [bind index nth fst snd]. now rewrite Hlat, Hlon. }
  intros comps H. apply numericPair_typeof in H.
  repeat split.
  - now apply addSegment_skip_l.
  - now apply addSegment_skip_r.
  - intros l1 l2. rewrite !lineLength_pathFrom. now apply pathFrom_skip.
  - intro st. now apply extendCoord_skip.
  - intros l1 l2 st. rewrite !forEach_app.
    destruct (forEach extendCoord l1 st) as [s'|]; [| reflexivity].
    simpl. now rewrite extendCoord_skip.
Qed.

Lemma non_number_pair_skipped_witness :
  lineLength (JArr truncatedLine) = Fin 0%R /\
  forEach extendCoord truncatedLine (emptyBounds, false)
  = forEach extendCoord [pair (Fin 0%R) (Fin 0%R); pair (Fin 0%R) (Fin 1%R)]
            (emptyBounds, false).
Proof.
  destruct non_number_pair_skipped as [H _].
  destruct (H [JNum (Fin 7%R)] eq_refl) as (_ & Hlen & _ & Hfold).
  split.
  - exact (Hlen [pair (Fin 0%R) (Fin 0%R)] [pair (Fin 0%R) (Fin 1%R)]).
  - exact (Hfold [pair (Fin 0%R) (Fin 0%R)] [pair (Fin 0%R) (Fin 1%R)]
                 (emptyBounds, false)).
Defined.

(** C2 as stated fails: a pair whose longitude is [Infinity] (or [NaN]) is
    a pair of numbers.  The segment that touches it is measured and turns
    the length of the line into [NaN] rather than adding 0, and [MapUpdater]
    folds the infinite pair into the bounds. *)
Lemma infinite_pair_not_skipped :
  isFinite (Inf false) = false /\
  lineLength infiniteLine = NaN /\
  lineLength infiniteLine <> Fin 0%R /\
  lineLength nanLine = NaN /\
  extendCoord (emptyBounds, false) infinitePair
  = Ok (Some {| south := Fin 0%R; west := Inf false;
                north := Fin 0%R; east := Inf false |}, true) /\
  extendCoord (emptyBounds, false) infinitePair <> Ok (emptyBounds, false).
Proof.
  assert (H : lineLength infiniteLine = NaN).
  { unfold infiniteLine. rewrite lineLength_pathFrom.
    cbv [pathFrom infinitePair pair addSegment truthy lengthLt jsLength
         index nth negb orb List.length Nat.ltb Nat.leb].
    rewrite calculateDistance_not_finite by reflexivity. reflexivity. }
  repeat split.
  - exact H.
  - rewrite H. discriminate.
  - unfold nanLine. rewrite lineLength_pathFrom.
    cbv [pathFrom pair addSegment truthy lengthLt jsLength
         index nth negb orb List.length Nat.ltb Nat.leb].
    rewrite calculateDistance_not_finite by reflexivity. reflexivity.
  - discriminate.
Qed.

(** ** Envelope builder *)

Lemma foldPairs_nil (st : MapState) : foldPairs st [] = st.
Proof. destruct st as [b h]. unfold foldPairs. simpl. now rewrite orb_false_r. Qed.

Lemma foldPairs_app (st : MapState) (ps qs : list (number * number)) :
  foldPairs (foldPairs st ps) qs = foldPairs st (ps ++ qs).
Proof.
  destruct st as [b h]. unfold foldPairs. simpl. rewrite fold_left_app.
  f_equal. destruct ps, qs; simpl; rewrite ?orb_false_r, ?orb_true_r;
    reflexivity.
Qed.

Lemma extendCoord_foldPairs (c : JsVal) (st st' : MapState) :
  extendCoord st c = Ok st' -> st' = foldPairs st (numericPairs [c]).
Proof.
  unfold extendCoord, numericPairs, numericPair, destructure2.
  destruct c; cbn [bind flat_map]; try discriminate;
    match goal with
    | |- context [index ?v 1] =>
        destruct (index v 1) as [| |la| |], (index v 0) as [| |lo| |]
    end;
    try (intro H; injection H as <-; cbn [app];
         rewrite ?foldPairs_nil; reflexivity);
    unfold extend;
    destruct (isNaN (fst (la, lo)) || isNaN (snd (la, lo)));
    cbn [bind]; intro H; try discriminate;
    injection H as <-; cbn [app];
    unfold foldPairs; simpl; now rewrite orb_true_r.
Qed.

Lemma numericPairs_cons (c : JsVal) (l : list JsVal) :
  numericPairs (c :: l) = (numericPairs [c] ++ numericPairs l)%list.
Proof. unfold numericPairs. cbn [flat_map]. now rewrite app_nil_r. Qed.

Lemma forEach_extendCoord (l : list JsVal) :
  forall st st' : MapState,
    forEach extendCoord l st = Ok st' -> st' = foldPairs st (numericPairs l).
Proof.
  induction l as [|c l IH]; intros st st' H; simpl in H.
  - injection H as <-. symmetry. apply foldPairs_nil.
  - destruct (extendCoord st c) as [s1|] eqn:E; simpl in H; [| discriminate].
    apply extendCoord_foldPairs in E. apply IH in H. subst s1 st'.
    rewrite foldPairs_app, <- numericPairs_cons. reflexivity.
Qed.

Lemma arrayForEach_extendCoord (v : JsVal) (st st' : MapState) :
  arrayForEach extendCoord v st = Ok st' ->
  st' = foldPairs st (numericPairs (elements v)).
Proof.
  destruct v; simpl; try discriminate. apply forEach_extendCoord.
Qed.

Lemma forEach_lines (lines : list JsVal) :
  forall st st' : MapState,
    forEach (fun s line => arrayForEach extendCoord line s) lines st = Ok st' ->
    st' = foldPairs st
            (flat_map (fun line => numericPairs (elements line)) lines).
Proof.
  induction lines as [|line lines IH]; intros st st' H; simpl in H.
  - injection H as <-. symmetry. apply foldPairs_nil.
  - destruct (arrayForEach extendCoord line st) as [s1|] eqn:E; simpl in H;
      [| discriminate].
    apply arrayForEach_extendCoord in E. apply IH in H. subst s1 st'.
    rewrite foldPairs_app. reflexivity.
Qed.

Lemma extendFeature_foldPairs (f : GeoJsonFeature) (st st' : MapState) :
  extendFeature st f = Ok st' -> st' = foldPairs st (featurePairs f).
Proof.
  assert (Hsame : Ok st = Ok st' -> st' = foldPairs st []).
  { intro H. injection H as <-. symmetry. apply foldPairs_nil. }
  unfold extendFeature, featurePairs.
  destruct (geometry f) as [g|]; [| exact Hsame].
  destruct (truthy (coordinates g)); [| exact Hsame].
  destruct (String.eqb (type g) "Point"); [apply extendCoord_foldPairs |].
  destruct (String.eqb (type g) "LineString");
    [apply arrayForEach_extendCoord |].
  destruct (String.eqb (type g) "MultiLineString"); [| exact Hsame].
  destruct (coordinates g); simpl; try discriminate. apply forEach_lines.
Qed.

(** The walk over the collection folds in the pairs of [featurePairs], in
    order, and raises the flag with the first of them. *)
Lemma forEach_extendFeature (fs : list GeoJsonFeature) :
  forall st st' : MapState,
    forEach extendFeature fs st = Ok st' ->
    st' = foldPairs st (flat_map featurePairs fs).
Proof.
  induction fs as [|f fs IH]; intros st st' H; simpl in H.
  - injection H as <-. symmetry. apply foldPairs_nil.
  - destruct (extendFeature st f) as [s1|] eqn:E; simpl in H;
      [| discriminate].
    apply extendFeature_foldPairs in E. apply IH in H. subst s1 st'.
    rewrite foldPairs_app. reflexivity.
Qed.

Lemma isValid_fold_extend (ps : list (number * number)) :
  forall c : Corners, isValid (fold_left extendCorners ps (Some c)) = true.
Proof.
  induction ps as [|[lat lon] ps IH]; intro c; simpl; [reflexivity | apply IH].
Qed.

Lemma isValid_folded (p : number * number) (ps : list (number * number)) :
  isValid (fold_left extendCorners (p :: ps) emptyBounds) = true.
Proof. destruct p as [lat lon]. simpl. apply isValid_fold_extend. Qed.

(** C9, as the code has it.  When the walk over the collection ends
    without an exception, [fitBounds] is left uncalled exactly when no pair
    passed the check on the types of its components, and is otherwise
    called with the bounds of the pairs folded in.  It is not called for an
    absent or empty collection, nor for a collection none of whose pairs
    passes the check. *)
Theorem MapUpdater_fits_when_pair_folded :
  (forall (g : GeoJsonData) (st : MapState),
      forEach extendFeature (features g) (emptyBounds, false) = Ok st ->
      fst st = fold_left extendCorners (flat_map featurePairs (features g))
                         emptyBounds /\
      MapUpdater (Some g)
      = Ok (match flat_map featurePairs (features g) with
            | [] => None
            | _ :: _ => Some (fst st)
            end)) /\
  MapUpdater None = Ok None /\
  MapUpdater (Some {| features := [] |}) = Ok None /\
  (forall g : GeoJsonData,
      flat_map featurePairs (features g) = [] ->
      forall bounds : LatLngBounds, MapUpdater (Some g) <> Ok (Some bounds)).
Proof.
  assert (Hmain : forall (g : GeoJsonData) (st : MapState),
             forEach extendFeature (features g) (emptyBounds, false) = Ok st ->
             fst st = fold_left extendCorners
                                (flat_map featurePairs (features g))
                                emptyBounds /\
             MapUpdater (Some g)
             = Ok (match flat_map featurePairs (features g) with
                   | [] => None
                   | _ :: _ => Some (fst st)
                   end)).
  { intros g st H. pose proof (forEach_extendFeature _ _ _ H) as Hst.
    split; [now rewrite Hst |].
    unfold MapUpdater.
    destruct (features g) as [|f fs] eqn:Efs; [reflexivity |].
    cbn [List.length Nat.ltb Nat.leb]. rewrite H. cbn [bind].
    rewrite Hst. unfold foldPairs. cbn [fst snd].
    destruct (flat_map featurePairs (f :: fs)) as [|p ps]; [reflexivity |].
    now rewrite isValid_folded. }
  split; [exact Hmain |]. split; [reflexivity |]. split; [reflexivity |].
  intros g Hnone bounds Hfit.
  destruct (forEach extendFeature (features g) (emptyBounds, false))
    as [st|e] eqn:E.
  - destruct (Hmain g st E) as [_ Hm]. rewrite Hnone in Hm. congruence.
  - unfold MapUpdater in Hfit.
    destruct (Nat.ltb 0 (List.length (features g))); [| discriminate].
    rewrite E in Hfit. discriminate.
Qed.

Lemma MapUpdater_fits_when_pair_folded_witness :
  MapUpdater (Some mixedCollection)
  = Ok (Some (fold_left extendCorners
                        (flat_map featurePairs (features mixedCollection))
                        emptyBounds)).
Proof.
  destruct MapUpdater_fits_when_pair_folded as [H _].
  destruct (H mixedCollection
              (fold_left extendCorners
                         (flat_map featurePairs (features mixedCollection))
                         emptyBounds, true)
              eq_refl) as [_ Hfit].
  exact Hfit.
Defined.

(** C9 as stated fails: the only coordinates of this collection are
    infinite, yet the pair is folded in and [fitBounds] is called with the
    bounds. *)
Lemma MapUpdater_fits_infinite_point :
  MapUpdater (Some infinitePointCollection)
  = Ok (Some (Some {| south := Inf true; west := Inf false;
                      north := Inf true; east := Inf false |})) /\
  MapUpdater (Some infinitePointCollection) <> Ok None.
Proof. split; [reflexivity | discriminate]. Qed.

(** ** The button handlers *)

(** [showSummary] stores the count of the loaded collection and clears the
    detail table; without a collection it changes nothing. *)
Lemma showSummary_state (st : AppState) :
  match geoJson st with
  | Some g =>
      summary (showSummary st) = Some (elementCountOf (features g)) /\
      details (showSummary st) = None /\
      geoJson (showSummary st) = geoJson st
  | None => showSummary st = st
  end.
Proof.
  unfold showSummary. destruct (geoJson st) as [g|]; simpl; auto.
Qed.

(** [showDetails] stores the detail table and clears the summary. *)
Lemma showDetails_state (st st' : AppState) (g : GeoJsonData) :
  geoJson st = Some g ->
  showDetails st = Ok st' ->
  exists data,
    detailedDataOf (features g) = Ok data /\
    details st' = Some data /\ summary st' = None /\ geoJson st' = Some g.
Proof.
  unfold showDetails. intros -> H.
  destruct (detailedDataOf (features g)) as [data|]; simpl in H;
    [| discriminate].
  injection H as <-. exists data. auto.
Qed.

(** * Further properties *)

(** ** A coordinate that is not finite *)

Lemma pathFrom_NaN (points : list (number * number)) :
  pathFrom NaN (numericLine points) = NaN.
Proof.
  induction points as [|p rest IH]; [reflexivity |].
  destruct rest as [|q rest']; [reflexivity |]. exact IH.
Qed.

Lemma pathFrom_not_finite_first (acc : number) (p q : number * number)
      (rest : list (number * number)) :
  finitePair p = false ->
  pathFrom acc (numericLine (p :: q :: rest)) = NaN.
Proof.
  intro Hp.
  change (pathFrom acc (numericLine (p :: q :: rest)))
    with (pathFrom
            (acc + calculateDistance (snd p) (fst p) (snd q) (fst q))%js
            (numericLine (q :: rest))).
  rewrite calculateDistance_not_finite, add_NaN_r; [apply pathFrom_NaN |].
  unfold finitePair in Hp.
  destruct (isFinite (fst p)), (isFinite (snd p)); simpl in *;
    try discriminate; reflexivity.
Qed.

Lemma pathFrom_not_finite_second (acc : number) (q p : number * number)
      (rest : list (number * number)) :
  finitePair p = false ->
  pathFrom acc (numericLine (q :: p :: rest)) = NaN.
Proof.
  intro Hp.
  change (pathFrom acc (numericLine (q :: p :: rest)))
    with (pathFrom
            (acc + calculateDistance (snd q) (fst q) (snd p) (fst p))%js
            (numericLine (p :: rest))).
  rewrite calculateDistance_not_finite, add_NaN_r; [apply pathFrom_NaN |].
  unfold finitePair in Hp.
  destruct (isFinite (fst p)), (isFinite (snd p)),
           (isFinite (fst q)), (isFinite (snd q)); simpl in *;
    try discriminate; reflexivity.
Qed.

(** X1.  One pair with a [NaN] or infinite component spoils the whole
    length: a line of two or more pairs of numbers, one of which is not
    finite, has the length [NaN], wherever that pair stands. *)
Theorem lineLength_not_finite (before after : list (number * number))
        (p : number * number) :
  finitePair p = false ->
  before <> [] \/ after <> [] ->
  lineLength (JArr (numericLine (before ++ p :: after))) = NaN.
Proof.
  intros Hp Hmore. rewrite lineLength_pathFrom.
  generalize (Fin 0%R). revert Hmore.
  induction before as [|q1 before IH]; intros Hmore acc.
  - destruct after as [|q rest]; [destruct Hmore; congruence |].
    now apply pathFrom_not_finite_first.
  - destruct before as [|q2 before'].
    + now apply pathFrom_not_finite_second.
    + change (pathFrom acc (numericLine ((q1 :: q2 :: before') ++ p :: after)))
        with (pathFrom
                (acc + calculateDistance (snd q1) (fst q1) (snd q2) (fst q2))%js
                (numericLine ((q2 :: before') ++ p :: after))).
      apply IH. left. discriminate.
Qed.

Lemma lineLength_not_finite_witness :
  lineLength
    (JArr (numericLine [(Fin 0%R, Fin 0%R); (Fin 0%R, Fin 1%R);
                        (Inf false, Fin 2%R); (Fin 0%R, Fin 3%R)]))
  = NaN.
Proof.
  apply (lineLength_not_finite
           [(Fin 0%R, Fin 0%R); (Fin 0%R, Fin 1%R)] [(Fin 0%R, Fin 3%R)]
           (Inf false, Fin 2%R)).
  - reflexivity.
  - left. discriminate.
Defined.

(** ** Summary builder: the whole object *)

Lemma In_keys_ownProperty (o : ElementCount) (k : string) :
  In k (keys o) <-> ownProperty o k <> None.
Proof.
  unfold keys. induction o as [|[k0 w] rest IH]; simpl.
  - intuition congruence.
  - destruct (String.eqb k0 k) eqn:E.
    + apply String.eqb_eq in E. subst k0. intuition congruence.
    + apply String.eqb_neq in E. rewrite <- IH. intuition congruence.
Qed.

Lemma keys_replaceOwn (o : ElementCount) (k : string) (v : CountValue) :
  keys (replaceOwn o k v) = keys o.
Proof.
  unfold keys. induction o as [|[k0 w] rest IH]; simpl; [reflexivity |].
  destruct (String.eqb k0 k); simpl; [reflexivity | now rewrite IH].
Qed.

(** A new property is added to the ones there are, whatever its place. *)
Lemma addOwn_Permutation (o : ElementCount) (k : string) (v : CountValue) :
  Permutation ((k, v) :: o) (addOwn o k v).
Proof.
  unfold addOwn. destruct (arrayIndex k) as [n|].
  - induction o as [|[k0 w] rest IH]; simpl; [reflexivity |].
    destruct (arrayIndex k0) as [m|]; [destruct (N.ltb m n) |];
      try reflexivity.
    rewrite perm_swap. now apply perm_skip.
  - apply Permutation_cons_append.
Qed.

Lemma NoDup_keys_setOwn (o : ElementCount) (k : string) (v : CountValue) :
  NoDup (keys o) -> NoDup (keys (setOwn o k v)).
Proof.
  intro H. unfold setOwn. destruct (ownProperty o k) as [w|] eqn:E.
  - now rewrite keys_replaceOwn.
  - apply (Permutation_NoDup
             (Permutation_map fst (addOwn_Permutation o k v))).
    simpl. constructor; [| exact H].
    intro Hin. apply In_keys_ownProperty in Hin. contradiction.
Qed.

Lemma NoDup_keys_countFeature (o : ElementCount) (f : GeoJsonFeature) :
  NoDup (keys o) -> NoDup (keys (countFeature o f)).
Proof.
  intro H. unfold countFeature, setProperty.
  destruct (geometry f) as [g|]; [| exact H].
  destruct (negb (String.eqb (type g) EmptyString)); [| exact H].
  destruct (String.eqb (type g) "__proto__"); [exact H |].
  now apply NoDup_keys_setOwn.
Qed.

Lemma NoDup_keys_elementCountOf (fs : list GeoJsonFeature) :
  NoDup (keys (elementCountOf fs)).
Proof.
  unfold elementCountOf.
  assert (H : NoDup (keys initialElementCount)).
  { simpl. repeat constructor; simpl; intuition discriminate. }
  revert H. generalize initialElementCount.
  induction fs as [|f fs IH]; intros o H; simpl.
  - exact H.
  - apply IH. now apply NoDup_keys_countFeature.
Qed.

Lemma ownProperty_In (o : ElementCount) (k : string) (v : CountValue) :
  ownProperty o k = Some v -> In (k, v) o.
Proof.
  induction o as [|[k0 w] rest IH]; simpl; [discriminate |].
  destruct (String.eqb k0 k) eqn:E.
  - apply String.eqb_eq in E. subst k0. intro H. injection H as ->. now left.
  - intro H. right. now apply IH.
Qed.

Lemma In_ownProperty (o : ElementCount) (k : string) (v : CountValue) :
  NoDup (keys o) -> In (k, v) o -> ownProperty o k = Some v.
Proof.
  induction o as [|[k0 w] rest IH]; simpl; intros Hnd Hin; [contradiction |].
  inversion Hnd as [|? ? Hnot Hrest]; subst.
  destruct Hin as [Heq|Hin].
  - injection Heq as -> ->. now rewrite String.eqb_refl.
  - destruct (String.eqb k0 k) eqn:E.
    + apply String.eqb_eq in E. subst k0. exfalso. apply Hnot.
      change k with (fst (k, v)). now apply in_map.
    + now apply IH.
Qed.

(** Keys that [countFeature] never writes. *)
Lemma countFeature_empty_key (o : ElementCount) (f : GeoJsonFeature) :
  ownProperty (countFeature o f) EmptyString = ownProperty o EmptyString.
Proof.
  unfold countFeature, setProperty.
  destruct (geometry f) as [g|]; [| reflexivity].
  destruct (String.eqb (type g) EmptyString) eqn:E; [reflexivity |].
  simpl. destruct (String.eqb (type g) "__proto__"); [reflexivity |].
  now rewrite ownProperty_setOwn, E.
Qed.

Lemma countFeature_proto_key (o : ElementCount) (f : GeoJsonFeature) :
  ownProperty (countFeature o f) "__proto__" = ownProperty o "__proto__".
Proof.
  unfold countFeature, setProperty.
  destruct (geometry f) as [g|]; [| reflexivity].
  destruct (negb (String.eqb (type g) EmptyString)); [| reflexivity].
  destruct (String.eqb (type g) "__proto__") eqn:E; [reflexivity |].
  now rewrite ownProperty_setOwn, E.
Qed.

Lemma fold_countFeature_untouched (k : string) :
  (forall o f, ownProperty (countFeature o f) k = ownProperty o k) ->
  forall fs o, ownProperty (fold_left countFeature fs o) k = ownProperty o k.
Proof.
  intros Hk fs. induction fs as [|f fs IH]; intro o; simpl.
  - reflexivity.
  - now rewrite IH, Hk.
Qed.

Lemma fold_countFeature_text (k : string) (fs : list GeoJsonFeature) :
  k <> EmptyString -> k <> "__proto__" ->
  forall o,
    ownProperty o k = Some Text ->
    ownProperty (fold_left countFeature fs o) k = Some Text.
Proof.
  intros H1 H2. induction fs as [|f fs IH]; intros o Ho; simpl.
  - exact Ho.
  - apply IH. destruct (hasKind k f) eqn:E.
    + rewrite (countFeature_same k H1 H2 o f E). unfold getProperty.
      now rewrite Ho.
    + now rewrite (countFeature_other k o f E).
Qed.

Lemma fold_countFeature_inherited (k : string) (fs : list GeoJsonFeature) :
  k <> EmptyString -> k <> "__proto__" ->
  existsb (String.eqb k) objectPrototypeNames = true ->
  forall o,
    ownProperty o k = None ->
    ownProperty (fold_left countFeature fs o) k
    = if Nat.eqb (countKind k fs) 0 then None else Some Text.
Proof.
  intros H1 H2 Hin. induction fs as [|f fs IH]; intros o Ho; simpl.
  - exact Ho.
  - unfold countKind. simpl. destruct (hasKind k f) eqn:E.
    + simpl. apply fold_countFeature_text; try assumption.
      rewrite (countFeature_same k H1 H2 o f E). unfold getProperty.
      now rewrite Ho, Hin.
    + apply IH. now rewrite (countFeature_other k o f E).
Qed.

Lemma existsb_eqb_In (k : string) (l : list string) :
  existsb (String.eqb k) l = true <-> In k l.
Proof.
  rewrite existsb_exists. split.
  - intros (x & Hin & Hx). apply String.eqb_eq in Hx. now subst x.
  - intro H. exists k. split; [exact H | apply String.eqb_refl].
Qed.

(** The summary, key by key: what it holds under every string. *)
Lemma elementCountOf_entry (fs : list GeoJsonFeature) (k : string) :
  ownProperty (elementCountOf fs) k = summaryEntry k (countKind k fs).
Proof.
  unfold summaryEntry, elementCountOf.
  destruct (existsb (String.eqb k) recognizedKinds) eqn:Erec.
  - apply existsb_eqb_In in Erec. simpl in Erec.
    destruct Erec as [<-|[<-|[<-|[<-|[]]]]];
      match goal with
      | |- context [countKind ?kind fs] =>
          apply (fold_countFeature_present kind) with (n := 0);
          try discriminate; reflexivity
      end.
  - assert (Hinit : ownProperty initialElementCount k = None).
    { apply ownProperty_initial_absent. intro Hin.
      apply existsb_eqb_In in Hin. congruence. }
    destruct (String.eqb k EmptyString) eqn:E0.
    { apply String.eqb_eq in E0. subst k.
      rewrite (fold_countFeature_untouched _ countFeature_empty_key).
      now destruct (Nat.eqb (countKind EmptyString fs) 0). }
    destruct (String.eqb k "__proto__") eqn:Ep.
    { apply String.eqb_eq in Ep. subst k.
      rewrite (fold_countFeature_untouched _ countFeature_proto_key).
      now destruct (Nat.eqb (countKind "__proto__" fs) 0). }
    apply String.eqb_neq in E0, Ep.
    destruct (existsb (String.eqb k) objectPrototypeNames) eqn:Ein.
    + now apply fold_countFeature_inherited.
    + apply fold_countFeature_absent; try assumption.
      intro Hin. apply existsb_eqb_In in Hin. congruence.
Qed.

Lemma countKind_Permutation (k : string) (fs fs' : list GeoJsonFeature) :
  Permutation fs fs' -> countKind k fs = countKind k fs'.
Proof.
  unfold countKind. intro H. induction H as [|f l l' _ IH|f f' l|l l' l'' _ IH1 _ IH2].
  - reflexivity.
  - simpl. destruct (hasKind k f); simpl; now rewrite IH.
  - simpl. destruct (hasKind k f), (hasKind k f'); reflexivity.
  - now rewrite IH1.
Qed.

(** X6.  The order of the features does not matter to the counts: two
    collections with the same features hold the same value under every
    key of the summary. *)
Theorem elementCountOf_Permutation (fs fs' : list GeoJsonFeature) :
  Permutation fs fs' ->
  forall key : string,
    ownProperty (elementCountOf fs) key = ownProperty (elementCountOf fs') key.
Proof.
  intros H key. rewrite !elementCountOf_entry.
  now rewrite (countKind_Permutation key fs fs' H).
Qed.

Lemma elementCountOf_Permutation_witness :
  ownProperty (elementCountOf [geometryCollectionFeature; namelessLine])
              "LineString"
  = ownProperty (elementCountOf [namelessLine; geometryCollectionFeature])
                "LineString".
Proof.
  apply (elementCountOf_Permutation
           [geometryCollectionFeature; namelessLine]
           [namelessLine; geometryCollectionFeature]).
  apply perm_swap.
Defined.

(** X7.  A kind that is a name every object inherits is not counted as a
    number: the summary holds a text under it, whatever the number of such
    features, and nothing at all under [__proto__]. *)
Theorem elementCountOf_inherited_name (fs : list GeoJsonFeature)
        (kind : string) :
  In kind objectPrototypeNames ->
  0 < countKind kind fs ->
  ownProperty (elementCountOf fs) kind
  = if String.eqb kind "__proto__" then None else Some Text.
Proof.
  intros Hin Hpos. rewrite elementCountOf_entry. unfold summaryEntry.
  assert (Hc : Nat.eqb (countKind kind fs) 0 = false)
    by (apply Nat.eqb_neq; lia).
  rewrite Hc.
  simpl in Hin.
  repeat (destruct Hin as [<-|Hin]; [reflexivity |]).
  contradiction.
Qed.

Lemma elementCountOf_inherited_name_witness :
  ownProperty
    (elementCountOf [lineFeature "toString" JUndefined None;
                     lineFeature "toString" JUndefined None])
    "toString"
  = Some Text.
Proof.
  apply (elementCountOf_inherited_name
           [lineFeature "toString" JUndefined None;
            lineFeature "toString" JUndefined None] "toString").
  - simpl. tauto.
  - unfold countKind. simpl. lia.
Defined.

Lemma sumValues_Permutation (o o' : ElementCount) :
  Permutation o o' -> sumValues o = sumValues o'.
Proof.
  induction 1 as [|x l l' _ IH|x y l|l l' l'' _ IH1 _ IH2]; simpl; lia.
Qed.

Lemma sumValues_replaceOwn (o : ElementCount) (k : string) (v w : CountValue) :
  ownProperty o k = Some w ->
  sumValues (replaceOwn o k v) + countValue w = sumValues o + countValue v.
Proof.
  induction o as [|[k0 u] rest IH]; simpl; [discriminate |].
  destruct (String.eqb k0 k); simpl.
  - intro H. injection H as ->. lia.
  - intro H. specialize (IH H). lia.
Qed.

Lemma sumValues_setOwn (o : ElementCount) (k : string) (v : CountValue) :
  sumValues (setOwn o k v)
  + match ownProperty o k with Some w => countValue w | None => 0 end
  = sumValues o + countValue v.
Proof.
  unfold setOwn. destruct (ownProperty o k) as [w|] eqn:E.
  - now apply sumValues_replaceOwn.
  - rewrite <- (sumValues_Permutation _ _ (addOwn_Permutation o k v)).
    simpl. lia.
Qed.

Lemma Forall_replaceOwn (P : string * CountValue -> Prop) (o : ElementCount)
      (k : string) (v : CountValue) :
  Forall P o -> (forall k0 w, P (k0, w) -> P (k0, v)) ->
  Forall P (replaceOwn o k v).
Proof.
  intros Ho Hsame. induction Ho as [|[k0 w] rest Hx Hrest IH]; simpl.
  - constructor.
  - destruct (String.eqb k0 k); constructor; eauto.
Qed.

Lemma Forall_setOwn (P : string * CountValue -> Prop) (o : ElementCount)
      (k : string) (v : CountValue) :
  Forall P o -> P (k, v) -> (forall k0 w, P (k0, w) -> P (k0, v)) ->
  Forall P (setOwn o k v).
Proof.
  intros Ho Hv Hsame. unfold setOwn. destruct (ownProperty o k).
  - now apply Forall_replaceOwn.
  - apply (Permutation_Forall (addOwn_Permutation o k v)).
    now constructor.
Qed.

Lemma countFeature_sum (o : ElementCount) (f : GeoJsonFeature) :
  Forall (fun kv => snd kv <> Text) o ->
  collidesWithPrototype f = false ->
  Forall (fun kv => snd kv <> Text) (countFeature o f) /\
  sumValues (countFeature o f)
  = sumValues o + (if counted f then 1 else 0).
Proof.
  intros Hall Hcol. unfold countFeature, counted, collidesWithPrototype in *.
  destruct (geometry f) as [g|]; [| split; [assumption | lia]].
  destruct (String.eqb (type g) EmptyString); simpl;
    [split; [assumption | lia] |].
  unfold setProperty, getProperty. rewrite Hcol.
  assert (Hp : String.eqb (type g) "__proto__" = false).
  { destruct (String.eqb (type g) "__proto__") eqn:E; [| reflexivity].
    apply String.eqb_eq in E. rewrite E in Hcol. discriminate. }
  rewrite Hp.
  pose proof (sumValues_setOwn o (type g)) as Hsum.
  destruct (ownProperty o (type g)) as [[n|]|] eqn:E; simpl.
  - split.
    + apply Forall_setOwn; simpl; try assumption; discriminate.
    + specialize (Hsum (Count (n + 1))). simpl in Hsum. lia.
  - exfalso. apply ownProperty_In in E.
    rewrite Forall_forall in Hall. now apply (Hall _ E).
  - split.
    + apply Forall_setOwn; simpl; try assumption; discriminate.
    + specialize (Hsum (Count 1)). simpl in Hsum. lia.
Qed.

Lemma fold_countFeature_sum (fs : list GeoJsonFeature) :
  forall o : ElementCount,
    Forall (fun kv => snd kv <> Text) o ->
    forallb (fun f => negb (collidesWithPrototype f)) fs = true ->
    Forall (fun kv => snd kv <> Text) (fold_left countFeature fs o) /\
    sumValues (fold_left countFeature fs o)
    = sumValues o + List.length (filter counted fs).
Proof.
  induction fs as [|f fs IH]; intros o Hall Hfs; simpl.
  - split; [assumption | lia].
  - simpl in Hfs. apply andb_true_iff in Hfs as [Hf Hfs].
    apply negb_true_iff in Hf.
    destruct (countFeature_sum o f Hall Hf) as [Hall' Hsum'].
    destruct (IH (countFeature o f) Hall' Hfs) as [Hr Hs].
    split; [assumption |].
    rewrite Hs, Hsum'. destruct (counted f); simpl; lia.
Qed.

(** X8.  When no kind collides with a name that objects inherit, the values
    of the summary are all counts and sum to the number of features that have
    a geometry with a kind, recognised or not. *)
Theorem elementCountOf_total (fs : list GeoJsonFeature) :
  forallb (fun f => negb (collidesWithPrototype f)) fs = true ->
  Forall (fun kv => snd kv <> Text) (elementCountOf fs) /\
  sumValues (elementCountOf fs) = List.length (filter counted fs).
Proof.
  intro H. unfold elementCountOf.
  apply (fold_countFeature_sum fs initialElementCount); [| exact H].
  repeat constructor; discriminate.
Qed.

Lemma elementCountOf_total_witness :
  sumValues (elementCountOf [geometryCollectionFeature; namelessLine;
                             singlePointLine])
  = 3.
Proof.
  apply (elementCountOf_total
           [geometryCollectionFeature; namelessLine; singlePointLine]).
  reflexivity.
Defined.

Lemma In_summaryRows (o : ElementCount) (k : string) (n : nat) :
  In (k, n) (summaryRows o) <-> In (k, Count n) o /\ 0 < n.
Proof.
  unfold summaryRows. rewrite in_flat_map. split.
  - intros ([k0 [m|]] & Hin & Hrow); simpl in Hrow; [| contradiction].
    destruct (Nat.ltb 0 m) eqn:E; [| contradiction].
    destruct Hrow as [Heq|[]]. injection Heq as -> ->.
    apply Nat.ltb_lt in E. now split.
  - intros [Hin Hpos]. exists (k, Count n). split; [exact Hin |].
    simpl. apply Nat.ltb_lt in Hpos. rewrite Hpos. now left.
Qed.

Lemma recognized_not_special (k : string) :
  existsb (String.eqb k) recognizedKinds = true ->
  k <> EmptyString /\ ~ In k objectPrototypeNames.
Proof.
  intro H. apply existsb_eqb_In in H. simpl in H.
  destruct H as [<-|[<-|[<-|[<-|[]]]]];
    (split; [discriminate | simpl; intuition discriminate]).
Qed.

(** X9.  The summary table shows a row for a kind exactly when at least one
    feature has that kind, with the number of these features; the kinds
    without a feature, the four fixed ones included, have no row, and
    neither has a kind that collides with an inherited name. *)
Theorem summaryRows_shown (fs : list GeoJsonFeature) (kind : string)
        (n : nat) :
  In (kind, n) (summaryRows (elementCountOf fs)) <->
  n = countKind kind fs /\ 0 < n /\
  kind <> EmptyString /\ ~ In kind objectPrototypeNames.
Proof.
  rewrite In_summaryRows. split.
  - intros [Hin Hpos].
    apply (In_ownProperty _ _ _ (NoDup_keys_elementCountOf fs)) in Hin.
    rewrite elementCountOf_entry in Hin. unfold summaryEntry in Hin.
    destruct (existsb (String.eqb kind) recognizedKinds) eqn:Erec.
    { injection Hin as <-.
      destruct (recognized_not_special kind Erec). auto. }
    destruct (Nat.eqb (countKind kind fs) 0); [discriminate |].
    destruct (String.eqb kind EmptyString) eqn:E0; [discriminate |].
    destruct (String.eqb kind "__proto__"); [discriminate |].
    destruct (existsb (String.eqb kind) objectPrototypeNames) eqn:Ein;
      [discriminate |].
    injection Hin as <-. apply String.eqb_neq in E0.
    repeat split; try assumption.
    intro H. apply existsb_eqb_In in H. congruence.
  - intros (-> & Hpos & Hne & Hnot). split; [| exact Hpos].
    apply ownProperty_In. rewrite elementCountOf_entry. unfold summaryEntry.
    destruct (existsb (String.eqb kind) recognizedKinds); [reflexivity |].
    assert (Hc : Nat.eqb (countKind kind fs) 0 = false)
      by (apply Nat.eqb_neq; lia).
    rewrite Hc. apply String.eqb_neq in Hne. rewrite Hne.
    destruct (String.eqb kind "__proto__") eqn:Ep.
    { apply String.eqb_eq in Ep. subst kind. exfalso. apply Hnot.
      simpl. tauto. }
    destruct (existsb (String.eqb kind) objectPrototypeNames) eqn:Ein;
      [| reflexivity].
    apply existsb_eqb_In in Ein. contradiction.
Qed.

Lemma summaryRows_shown_witness :
  In ("GeometryCollection", 1)
     (summaryRows (elementCountOf [geometryCollectionFeature; namelessLine])).
Proof.
  apply (summaryRows_shown [geometryCollectionFeature; namelessLine]
                           "GeometryCollection" 1).
  repeat split.
  - lia.
  - discriminate.
  - simpl. intuition discriminate.
Defined.

(** X5.  The keys of the summary are the four fixed kinds and the kinds
    that occur among the features (the empty kind and [__proto__] apart),
    each listed once. *)
Theorem elementCountOf_keys (fs : list GeoJsonFeature) :
  NoDup (keys (elementCountOf fs)) /\
  forall key : string,
    In key (keys (elementCountOf fs)) <->
    In key recognizedKinds \/
    (0 < countKind key fs /\ key <> EmptyString /\ key <> "__proto__").
Proof.
  split; [apply NoDup_keys_elementCountOf |].
  intro key. rewrite In_keys_ownProperty, elementCountOf_entry.
  unfold summaryEntry.
  destruct (existsb (String.eqb key) recognizedKinds) eqn:Erec.
  { apply existsb_eqb_In in Erec. split; [auto | discriminate]. }
  assert (Hnot : ~ In key recognizedKinds).
  { intro H. apply existsb_eqb_In in H. congruence. }
  destruct (Nat.eqb (countKind key fs) 0) eqn:Ec.
  { apply Nat.eqb_eq in Ec. split; [congruence |]. intros [H|[H _]];
      [contradiction | lia]. }
  apply Nat.eqb_neq in Ec.
  destruct (String.eqb key EmptyString) eqn:E0.
  { apply String.eqb_eq in E0. split; [congruence |].
    intros [H|(_ & H & _)]; contradiction. }
  destruct (String.eqb key "__proto__") eqn:Ep.
  { apply String.eqb_eq in Ep. split; [congruence |].
    intros [H|(_ & _ & H)]; contradiction. }
  apply String.eqb_neq in E0, Ep.
  assert (Hr : 0 < countKind key fs /\ key <> EmptyString /\ key <> "__proto__")
    by (repeat split; try assumption; lia).
  destruct (existsb (String.eqb key) objectPrototypeNames);
    (split; [auto | discriminate]).
Qed.

(** ** Detail builder: what the length depends on *)

Lemma leadingPair_cases (c : JsVal) :
  leadingPair c = c \/
  exists a b rest, c = JArr (a :: b :: rest) /\ leadingPair c = JArr [a; b].
Proof.
  destruct c as [| | | |comps]; try (now left).
  destruct comps as [|a [|b rest]]; try (now left).
  right. now exists a, b, rest.
Qed.

Lemma addSegment_leadingPair (acc : number) (c1 c2 : JsVal) :
  addSegment acc (leadingPair c1) (leadingPair c2) = addSegment acc c1 c2.
Proof.
  destruct (leadingPair_cases c1) as [->|(a1 & b1 & r1 & -> & ->)];
    destruct (leadingPair_cases c2) as [->|(a2 & b2 & r2 & -> & ->)];
    reflexivity.
Qed.

Lemma pathFrom_leadingPair (l : list JsVal) :
  forall acc : number, pathFrom acc (map leadingPair l) = pathFrom acc l.
Proof.
  induction l as [|c1 rest IH]; intro acc; [reflexivity |].
  destruct rest as [|c2 rest']; [reflexivity |].
  change (pathFrom (addSegment acc (leadingPair c1) (leadingPair c2))
                   (map leadingPair (c2 :: rest'))
          = pathFrom (addSegment acc c1 c2) (c2 :: rest')).
  now rewrite addSegment_leadingPair, IH.
Qed.

Lemma extendCoord_leadingPair (st : MapState) (c : JsVal) :
  extendCoord st (leadingPair c) = extendCoord st c.
Proof.
  destruct (leadingPair_cases c) as [->|(a & b & r & -> & ->)]; reflexivity.
Qed.

(** X10.  Only the two leading components of a coordinate pair are read:
    an altitude, or anything else after the latitude, changes neither the
    length of a line nor what [MapUpdater] folds into the bounds. *)
Theorem altitude_ignored (l : list JsVal) :
  lineLength (JArr (map leadingPair l)) = lineLength (JArr l) /\
  forall st : MapState,
    forEach extendCoord (map leadingPair l) st = forEach extendCoord l st.
Proof.
  split.
  - rewrite !lineLength_pathFrom. apply pathFrom_leadingPair.
  - induction l as [|c rest IH]; intro st; simpl; [reflexivity |].
    rewrite extendCoord_leadingPair.
    destruct (extendCoord st c) as [s'|]; simpl; [apply IH | reflexivity].
Qed.

Lemma pathFrom_stationary (lon lat : R) (n : nat) :
  pathFrom (Fin 0%R) (finiteLine (repeat (lon, lat) n)) = Fin 0%R.
Proof.
  induction n as [|n IH]; [reflexivity |].
  destruct n as [|n]; [reflexivity |].
  change (pathFrom (Fin 0%R) (finiteLine (repeat (lon, lat) (S (S n)))))
    with (pathFrom
            (Fin 0%R
             + calculateDistance (Fin lat) (Fin lon) (Fin lat) (Fin lon))%js
            (finiteLine (repeat (lon, lat) (S n)))).
  rewrite calculateDistance_Fin, Rdistance_same.
  replace (Fin 0%R + Fin 0%R)%js with (Fin 0%R)
    by (simpl; f_equal; lra).
  exact IH.
Qed.

(** X12.  A line that stays at one point, of latitude in [-90, 90] and
    longitude in [-180, 180], has length 0, however many times the point is
    repeated. *)
Theorem lineLength_stationary (lon lat : R) (n : nat) :
  (-180 <= lon <= 180)%R -> (-90 <= lat <= 90)%R ->
  lineLength (JArr (finiteLine (repeat (lon, lat) n))) = Fin 0%R.
Proof.
  intros _ _. rewrite lineLength_pathFrom. apply pathFrom_stationary.
Qed.

Lemma lineLength_stationary_witness :
  lineLength (JArr (finiteLine (repeat (20%R, 10%R) 3))) = Fin 0%R.
Proof. apply (lineLength_stationary 20 10 3); lra. Defined.

(** ** Detail builder: exceptions, composition and the empty table *)

Lemma detailOf_not_flattenable (f : GeoJsonFeature) :
  flattenable f = false -> detailOf f = Throw TypeError.
Proof.
  unfold flattenable, detailOf, lineCoordinates.
  destruct (geometry f) as [g|]; [| discriminate].
  destruct (String.eqb (type g) "MultiLineString") eqn:E; [| discriminate].
  apply String.eqb_eq in E. rewrite E. simpl.
  destruct (coordinates g); try discriminate; reflexivity.
Qed.

Lemma forEach_pushDetail_throws (fs : list GeoJsonFeature) :
  forallb flattenable fs = false ->
  forall acc : list DetailItem, forEach pushDetail fs acc = Throw TypeError.
Proof.
  induction fs as [|f fs IH]; intros H acc; simpl in *; [discriminate |].
  unfold pushDetail at 1.
  destruct (flattenable f) eqn:E.
  - destruct (detailOf_flattenable f E) as [item ->]. simpl.
    apply IH. exact H.
  - now rewrite (detailOf_not_flattenable f E).
Qed.

(** X13.  When some feature of kind [MultiLineString] has coordinates that
    are not an array, [showDetails] throws a [TypeError]: the exception
    leaves the loop, no table is made even of the features before it, and
    the tables on the page stay as they were. *)
Theorem showDetails_throws (st : AppState) (g : GeoJsonData) :
  geoJson st = Some g ->
  forallb flattenable (features g) = false ->
  detailedDataOf (features g) = Throw TypeError /\
  showDetails st = Throw TypeError /\
  step st ShowDetailsClicked = st.
Proof.
  intros Hg H.
  assert (Hd : detailedDataOf (features g) = Throw TypeError)
    by (now apply forEach_pushDetail_throws).
  split; [exact Hd |].
  assert (Hs : showDetails st = Throw TypeError).
  { unfold showDetails. now rewrite Hg, Hd. }
  split; [exact Hs |]. simpl. now rewrite Hs.
Qed.

Lemma showDetails_throws_witness :
  step {| geoJson :=
            Some {| features :=
                      [namelessLine;
                       lineFeature "MultiLineString" JUndefined None] |};
          summary := Some initialElementCount; details := None |}
       ShowDetailsClicked
  = {| geoJson :=
         Some {| features :=
                   [namelessLine;
                    lineFeature "MultiLineString" JUndefined None] |};
       summary := Some initialElementCount; details := None |}.
Proof.
  apply (showDetails_throws
           {| geoJson :=
                Some {| features :=
                          [namelessLine;
                           lineFeature "MultiLineString" JUndefined None] |};
              summary := Some initialElementCount; details := None |}
           {| features :=
                [namelessLine;
                 lineFeature "MultiLineString" JUndefined None] |});
    reflexivity.
Defined.

Lemma forEach_pushDetail_from (fs : list GeoJsonFeature) :
  forall acc : list DetailItem,
    forEach pushDetail fs acc
    = (ds <- forEach pushDetail fs [] ;; Ok (acc ++ ds)%list).
Proof.
  induction fs as [|f fs IH]; intro acc; simpl.
  - now rewrite app_nil_r.
  - unfold pushDetail at 1 3.
    destruct (detailOf f) as [item|]; simpl; [| reflexivity].
    rewrite IH.
    rewrite (IH (match item with Some d => [d] | None => [] end)).
    destruct (forEach pushDetail fs []) as [ds|]; simpl; [| reflexivity].
    destruct item; simpl; now rewrite <- ?app_assoc.
Qed.

(** X14.  The table of a collection made of two parts is the table of the
    first part followed by that of the second; an exception in either part
    is an exception of the whole. *)
Theorem detailedDataOf_app (fs1 fs2 : list GeoJsonFeature) :
  detailedDataOf (fs1 ++ fs2)
  = (ds1 <- detailedDataOf fs1 ;;
     ds2 <- detailedDataOf fs2 ;;
     Ok (ds1 ++ ds2)%list).
Proof.
  unfold detailedDataOf. rewrite forEach_app.
  destruct (forEach pushDetail fs1 []) as [ds1|]; simpl; [| reflexivity].
  apply forEach_pushDetail_from.
Qed.

Lemma Subsequence_filter_length {A : Type} (P : A -> bool)
      (sub l : list A) :
  Subsequence sub l -> Forall (fun x => P x = true) sub ->
  List.length sub <= List.length (filter P l).
Proof.
  induction 1 as [|x sub l _ IH|x sub l _ IH]; intro Hall; simpl.
  - lia.
  - inversion Hall as [|? ? Hx Hrest]; subst. rewrite Hx. simpl.
    specialize (IH Hrest). lia.
  - specialize (IH Hall). destruct (P x); simpl; lia.
Qed.

Lemma isLine_item (f : GeoJsonFeature) (d : DetailItem) :
  detailOf f = Ok (Some d) -> isLine f = true.
Proof.
  intro H. destruct (detailOf_item f d H) as (g & Hg & Hk & _).
  unfold isLine, hasKind. rewrite Hg. destruct Hk as [-> | ->]; reflexivity.
Qed.

Lemma detailedDataOf_length (fs : list GeoJsonFeature)
      (ds : list DetailItem) :
  detailedDataOf fs = Ok ds ->
  List.length ds <= List.length (filter isLine fs).
Proof.
  intro H.
  destruct (forEach_pushDetail fs [] ds H) as (src & new & -> & Hs & Hf).
  simpl. rewrite <- (Forall2_length Hf).
  apply Subsequence_filter_length; [exact Hs |].
  clear Hs H. induction Hf; constructor; eauto using isLine_item.
Qed.

Lemma flattenable_not_line (f : GeoJsonFeature) :
  isLine f = false -> flattenable f = true.
Proof.
  unfold isLine, hasKind, flattenable.
  destruct (geometry f) as [g|]; [| reflexivity].
  destruct (String.eqb (type g) "MultiLineString"); [| reflexivity].
  rewrite orb_true_r. discriminate.
Qed.

(** X15.  The table never has more rows than the collection has line-shaped
    features; with no such feature (an empty collection, or points and
    polygons only) [showDetails] succeeds with an empty table, and the page
    shows its "no line elements" message. *)
Theorem showDetails_without_lines :
  (forall (fs : list GeoJsonFeature) (ds : list DetailItem),
      detailedDataOf fs = Ok ds ->
      List.length ds <= List.length (filter isLine fs)) /\
  (forall (st : AppState) (g : GeoJsonData),
      geoJson st = Some g ->
      filter isLine (features g) = [] ->
      exists st',
        showDetails st = Ok st' /\
        details st' = Some [] /\
        renderDetails (details st') = Some NoLineElements).
Proof.
  split; [exact detailedDataOf_length |].
  intros st g Hg Hnone.
  assert (Hflat : forallb flattenable (features g) = true).
  { apply forallb_forall. intros f Hin. apply flattenable_not_line.
    destruct (isLine f) eqn:E; [| reflexivity].
    assert (Hf : In f (filter isLine (features g)))
      by (apply filter_In; now split).
    rewrite Hnone in Hf. contradiction. }
  destruct (forEach_pushDetail_total _ Hflat []) as [ds Hds].
  pose proof (detailedDataOf_length _ _ Hds) as Hlen.
  rewrite Hnone in Hlen. destruct ds; [| simpl in Hlen; lia].
  unfold showDetails. rewrite Hg. fold (detailedDataOf (features g)) in Hds.
  rewrite Hds. simpl. eexists. repeat split.
Qed.

Lemma showDetails_without_lines_witness :
  exists st',
    showDetails {| geoJson := Some {| features := [geometryCollectionFeature] |};
                   summary := None; details := None |} = Ok st' /\
    details st' = Some [] /\
    renderDetails (details st') = Some NoLineElements.
Proof.
  destruct showDetails_without_lines as [_ H].
  apply (H {| geoJson := Some {| features := [geometryCollectionFeature] |};
              summary := None; details := None |}
           {| features := [geometryCollectionFeature] |});
    reflexivity.
Defined.

(** ** Envelope builder: what is walked, what throws, what is covered *)

Lemma forEach_ends_iff {S A : Type} (callback : S -> A -> Result S)
      (ok : A -> bool) :
  (forall s x, (exists s', callback s x = Ok s') <-> ok x = true) ->
  forall (l : list A) (s : S),
    (exists s', forEach callback l s = Ok s') <-> forallb ok l = true.
Proof.
  intros Hok. induction l as [|x l IH]; intro s; simpl.
  - split; [reflexivity | now eexists].
  - destruct (callback s x) as [s1|e] eqn:E; simpl.
    + assert (Hx : ok x = true) by (apply (Hok s x); now exists s1).
      rewrite Hx. simpl. apply IH.
    + assert (Hx : ok x = false).
      { destruct (ok x) eqn:Ex; [| reflexivity].
        apply (Hok s x) in Ex. destruct Ex as [s' Hs']. congruence. }
      rewrite Hx. simpl. split; [intros [s' H] |]; discriminate.
Qed.

Lemma forallb_andb {A : Type} (p q : A -> bool) (l : list A) :
  forallb (fun x => p x && q x) l = forallb p l && forallb q l.
Proof.
  induction l as [|x l IH]; simpl; [reflexivity |]. rewrite IH.
  destruct (p x), (q x), (forallb p l), (forallb q l); reflexivity.
Qed.

Lemma forallb_pointwise {A : Type} (p q : A -> bool) (l : list A) :
  (forall x, p x = q x) -> forallb p l = forallb q l.
Proof.
  intro H. induction l as [|x l IH]; simpl; [reflexivity |].
  now rewrite H, IH.
Qed.

Lemma forallb_flat_map {A B : Type} (p : B -> bool) (f : A -> list B)
      (l : list A) :
  forallb p (flat_map f l) = forallb (fun x => forallb p (f x)) l.
Proof.
  induction l as [|x l IH]; simpl; [reflexivity |].
  now rewrite forallb_app, IH.
Qed.

Lemma extendCoord_ends_iff (st : MapState) (c : JsVal) :
  (exists st', extendCoord st c = Ok st') <->
  iterable c && forallb acceptedPair (numericPairs [c]) = true.
Proof.
  unfold extendCoord, numericPairs, numericPair, destructure2, extend,
    acceptedPair.
  destruct c; cbn [bind flat_map iterable andb];
    try (split; [intros [st' H] |]; discriminate);
    match goal with
    | |- context [index ?v 1] =>
        destruct (index v 1) as [| |la| |], (index v 0) as [| |lo| |]
    end;
    cbn [app forallb fst snd];
    try (split; [reflexivity | now eexists]);
    destruct (isNaN la || isNaN lo); cbn [bind negb andb];
    (split; [intros [st' H] |]; try discriminate; try reflexivity;
     now eexists).
Qed.

Lemma forallb_numericPairs (l : list JsVal) :
  forallb (fun c => iterable c && forallb acceptedPair (numericPairs [c])) l
  = forallb iterable l && forallb acceptedPair (numericPairs l).
Proof.
  rewrite forallb_andb. f_equal.
  unfold numericPairs. rewrite forallb_flat_map.
  apply forallb_pointwise. intro c. cbn [flat_map]. now rewrite app_nil_r.
Qed.

Lemma arrayForEach_extendCoord_ends_iff (st : MapState) (v : JsVal) :
  (exists st', arrayForEach extendCoord v st = Ok st') <->
  arrayOfPairs v && forallb acceptedPair (numericPairs (elements v)) = true.
Proof.
  destruct v as [| | | |l]; simpl;
    try (split; [intros [st' H] |]; discriminate).
  rewrite <- forallb_numericPairs.
  apply (forEach_ends_iff extendCoord). intros s x.
  apply extendCoord_ends_iff.
Qed.

Lemma extendFeature_ends_iff (st : MapState) (f : GeoJsonFeature) :
  (exists st', extendFeature st f = Ok st') <->
  walkable f && forallb acceptedPair (featurePairs f) = true.
Proof.
  assert (Hsame : (exists st', Ok st = Ok st') <-> true && true = true).
  { split; [reflexivity | now eexists]. }
  unfold walkable, extendFeature, featurePairs.
  destruct (geometry f) as [g|]; [| exact Hsame].
  destruct (truthy (coordinates g)); [| exact Hsame].
  destruct (String.eqb (type g) "Point"); [apply extendCoord_ends_iff |].
  destruct (String.eqb (type g) "LineString");
    [apply arrayForEach_extendCoord_ends_iff |].
  destruct (String.eqb (type g) "MultiLineString"); [| exact Hsame].
  destruct (coordinates g) as [| | | |lines]; simpl;
    try (split; [intros [st' H] |]; discriminate).
  rewrite forallb_flat_map, <- forallb_andb.
  apply (forEach_ends_iff (fun s line => arrayForEach extendCoord line s)).
  intros s x. apply arrayForEach_extendCoord_ends_iff.
Qed.

(** X16.  The walk of [MapUpdater] over the features, the call of
    [geoJson.features.forEach], ends without an exception exactly when
    every feature can be walked and the accumulator takes every pair that
    passes the check.  A feature cannot be walked when its truthy [Point]
    coordinates are neither an array nor a string, its [LineString]
    coordinates are not an array whose elements are arrays or strings, or
    its [MultiLineString] coordinates are not an array of such arrays; the
    accumulator does not take a pair with a [NaN].  What [fitBounds] does
    when it is called after the walk is not part of the statement. *)
Theorem MapUpdater_walk_ends_iff (g : GeoJsonData) :
  (exists st : MapState,
      forEach extendFeature (features g) (emptyBounds, false) = Ok st) <->
  forallb walkable (features g) = true /\
  forallb acceptedPair (flat_map featurePairs (features g)) = true.
Proof.
  rewrite forallb_flat_map, <- andb_true_iff, <- forallb_andb.
  apply (forEach_ends_iff extendFeature _ extendFeature_ends_iff).
Qed.

Lemma MapUpdater_walk_ends_iff_witness :
  exists st : MapState,
    forEach extendFeature (features mixedCollection) (emptyBounds, false)
    = Ok st.
Proof.
  apply (MapUpdater_walk_ends_iff mixedCollection). split; reflexivity.
Defined.

Lemma extendFeature_other_kind (st : MapState) (f : GeoJsonFeature) :
  hasKind "Point" f || isLine f = false -> extendFeature st f = Ok st.
Proof.
  unfold isLine, hasKind, extendFeature.
  destruct (geometry f) as [g|]; [| reflexivity].
  destruct (truthy (coordinates g)); [| reflexivity].
  destruct (String.eqb (type g) "Point"); [discriminate |].
  destruct (String.eqb (type g) "LineString"); [discriminate |].
  destruct (String.eqb (type g) "MultiLineString"); [discriminate |].
  reflexivity.
Qed.

(** X17.  Only points, line strings and multi line strings move the map: a
    collection of features of other kinds (polygons, geometry collections)
    or without geometry is walked without an exception and the viewport is
    left alone, although the summary counts these features. *)
Theorem MapUpdater_other_kinds (g : GeoJsonData) :
  forallb (fun f => negb (hasKind "Point" f || isLine f)) (features g) = true ->
  MapUpdater (Some g) = Ok None.
Proof.
  intro H. unfold MapUpdater.
  assert (Hwalk : forall st : MapState,
             forEach extendFeature (features g) st = Ok st).
  { induction (features g) as [|f fs IH]; intro st; simpl; [reflexivity |].
    simpl in H. apply andb_true_iff in H as [Hf Hfs].
    apply negb_true_iff in Hf.
    rewrite (extendFeature_other_kind st f Hf). simpl. now apply IH. }
  rewrite Hwalk. simpl.
  now destruct (Nat.ltb 0 (List.length (features g))).
Qed.

Lemma MapUpdater_other_kinds_witness :
  MapUpdater
    (Some {| features := [geometryCollectionFeature;
                          lineFeature "Polygon" (JArr [JNull]) None] |})
  = Ok None.
Proof.
  apply (MapUpdater_other_kinds
           {| features := [geometryCollectionFeature;
                           lineFeature "Polygon" (JArr [JNull]) None] |}).
  reflexivity.
Defined.

Lemma MapUpdater_fitted (g : GeoJsonData) (b : LatLngBounds) :
  MapUpdater (Some g) = Ok (Some b) ->
  b = fold_left extendCorners (flat_map featurePairs (features g)) emptyBounds /\
  flat_map featurePairs (features g) <> [].
Proof.
  unfold MapUpdater.
  destruct (Nat.ltb 0 (List.length (features g))); [| discriminate].
  destruct (forEach extendFeature (features g) (emptyBounds, false))
    as [st|] eqn:E; simpl; [| discriminate].
  apply forEach_extendFeature in E. subst st. unfold foldPairs. simpl.
  destruct (flat_map featurePairs (features g)) as [|p ps]; simpl;
    [discriminate |].
  destruct (isValid (fold_left extendCorners ps (extendCorners emptyBounds p)));
    [| discriminate].
  intro H. injection H as <-. split; [reflexivity | discriminate].
Qed.

Lemma fold_left_extend_snoc (ps : list (number * number))
      (p : number * number) (b : LatLngBounds) :
  fold_left extendCorners (ps ++ [p]) b = extendCorners (fold_left extendCorners ps b) p.
Proof. now rewrite fold_left_app. Qed.

Lemma inside_extend (c : Corners) (a o : R) (q : number * number) :
  inside c q ->
  inside {| south := JsNumber.min (Fin a) (south c);
            west := JsNumber.min (Fin o) (west c);
            north := JsNumber.max (Fin a) (north c);
            east := JsNumber.max (Fin o) (east c) |} q.
Proof.
  unfold inside, leq. destruct q as [[lat| |] [lon| |]]; simpl;
    destruct c as [[s| |] [w| |] [n| |] [e| |]]; simpl;
    try tauto.
  intros (H1 & H2 & H3 & H4).
  pose proof (Rmin_r a s). pose proof (Rmin_r o w).
  pose proof (Rmax_r a n). pose proof (Rmax_r o e).
  repeat split; lra.
Qed.

(** Folding finite pairs in keeps every pair inside the corners, and every
    corner on one of the pairs. *)
Lemma fold_extend_covers (ps : list (number * number)) :
  forallb finitePair ps = true ->
  match fold_left extendCorners ps emptyBounds with
  | None => ps = []
  | Some c =>
      Forall (inside c) ps /\
      (exists p, In p ps /\ fst p = south c) /\
      (exists p, In p ps /\ snd p = west c) /\
      (exists p, In p ps /\ fst p = north c) /\
      (exists p, In p ps /\ snd p = east c)
  end.
Proof.
  induction ps as [|p ps IH] using rev_ind; intro Hfin; [reflexivity |].
  rewrite forallb_app in Hfin. apply andb_true_iff in Hfin as [Hps Hp].
  simpl in Hp. rewrite andb_true_r in Hp.
  rewrite fold_left_extend_snoc. specialize (IH Hps).
  destruct p as [[a| |] [o| |]]; try discriminate.
  destruct (fold_left extendCorners ps emptyBounds) as [c|].
  - destruct IH as (Hall & (ps1 & Hs1 & Es) & (pw & Hw1 & Ew)
                    & (pn & Hn1 & En) & (pe & He1 & Ee)).
    assert (Hone : exists q, In q ps) by (now exists ps1).
    destruct Hone as [q Hq].
    pose proof (proj1 (Forall_forall _ _) Hall q Hq) as Hin.
    unfold inside, leq in Hin.
    destruct c as [[s| |] [w| |] [n| |] [e| |]]; simpl in *;
      destruct q as [[ql| |] [qo| |]]; simpl in Hin; try tauto.
    repeat split.
    + apply Forall_app. split.
      * apply Forall_forall. intros x Hx.
        apply (inside_extend {| south := Fin s; west := Fin w;
                                north := Fin n; east := Fin e |} a o x).
        apply (proj1 (Forall_forall _ _) Hall x Hx).
      * constructor; [| constructor].
        unfold inside, leq. simpl.
        pose proof (Rmin_l a s). pose proof (Rmax_l a n).
        pose proof (Rmin_l o w). pose proof (Rmax_l o e). tauto.
    + unfold Rmin. destruct (Rle_dec a s).
      * exists (Fin a, Fin o). split; [apply in_or_app; simpl; auto | reflexivity].
      * exists ps1. split; [apply in_or_app; auto | assumption].
    + unfold Rmin. destruct (Rle_dec o w).
      * exists (Fin a, Fin o). split; [apply in_or_app; simpl; auto | reflexivity].
      * exists pw. split; [apply in_or_app; auto | assumption].
    + unfold Rmax. destruct (Rle_dec a n).
      * exists pn. split; [apply in_or_app; auto | assumption].
      * exists (Fin a, Fin o). split; [apply in_or_app; simpl; auto | reflexivity].
    + unfold Rmax. destruct (Rle_dec o e).
      * exists pe. split; [apply in_or_app; auto | assumption].
      * exists (Fin a, Fin o). split; [apply in_or_app; simpl; auto | reflexivity].
  - subst ps. simpl. repeat split.
    + constructor; [| constructor]. unfold inside, leq. simpl. lra.
    + exists (Fin a, Fin o). simpl. auto.
    + exists (Fin a, Fin o). simpl. auto.
    + exists (Fin a, Fin o). simpl. auto.
    + exists (Fin a, Fin o). simpl. auto.
Qed.

(** X18.  When every pair that passes the check is finite, the bounds that
    [MapUpdater] fits the map to are the smallest rectangle around these
    pairs: each pair lies inside, and each side passes through one of them
    (the accumulator being the one described by the specification). *)
Theorem MapUpdater_smallest_rectangle (g : GeoJsonData) (c : Corners) :
  forallb finitePair (flat_map featurePairs (features g)) = true ->
  MapUpdater (Some g) = Ok (Some (Some c)) ->
  Forall (inside c) (flat_map featurePairs (features g)) /\
  (exists p, In p (flat_map featurePairs (features g)) /\ fst p = south c) /\
  (exists p, In p (flat_map featurePairs (features g)) /\ snd p = west c) /\
  (exists p, In p (flat_map featurePairs (features g)) /\ fst p = north c) /\
  (exists p, In p (flat_map featurePairs (features g)) /\ snd p = east c).
Proof.
  intros Hfin Hfit.
  destruct (MapUpdater_fitted g _ Hfit) as [Hb _].
  pose proof (fold_extend_covers _ Hfin) as Hcov.
  rewrite <- Hb in Hcov. exact Hcov.
Qed.

Lemma MapUpdater_smallest_rectangle_witness :
  Forall (inside {| south := Fin (Rmin (-5) 10); west := Fin (Rmin 30 20);
                    north := Fin (Rmax (-5) 10); east := Fin (Rmax 30 20) |})
         [(Fin 10%R, Fin 20%R); (Fin (-5)%R, Fin 30%R)].
Proof.
  apply (MapUpdater_smallest_rectangle
           {| features := [pointFeature (pair (Fin 20%R) (Fin 10%R));
                           pointFeature (pair (Fin 30%R) (Fin (-5)%R))] |}
           {| south := Fin (Rmin (-5) 10); west := Fin (Rmin 30 20);
              north := Fin (Rmax (-5) 10); east := Fin (Rmax 30 20) |});
    reflexivity.
Defined.

(** ** The page: what the handlers keep true *)

Lemma run_snoc (events : list Event) (e : Event) (st : AppState) :
  run (events ++ [e]) st = step (run events st) e.
Proof. unfold run. now rewrite fold_left_app. Qed.

(** X19.  Whatever files are loaded and buttons pressed, from the start of
    the page: at most one of the two tables is shown; a table is shown only
    once a collection has been loaded; and a table that is shown was
    computed from a collection that was loaded, possibly an earlier one than
    the current one, since loading a file does not clear the tables. *)
Theorem run_tables_invariant (events : list Event) :
  let st := run events initialState in
  (summary st = None \/ details st = None) /\
  (forall g, geoJson st = Some g -> In (FileLoaded g) events) /\
  (forall o, summary st = Some o ->
             exists g, In (FileLoaded g) events /\
                       o = elementCountOf (features g)) /\
  (forall d, details st = Some d ->
             exists g, In (FileLoaded g) events /\
                       detailedDataOf (features g) = Ok d).
Proof.
  induction events as [|e events IH] using rev_ind; cbv zeta.
  - simpl. repeat split; try (now left); discriminate.
  - rewrite run_snoc. cbv zeta in IH.
    destruct IH as (Hone & Hgeo & Hsum & Hdet).
    set (st := run events initialState) in *.
    assert (Hweak : forall g, In (FileLoaded g) events ->
                              In (FileLoaded g) (events ++ [e]))
      by (intros g H; apply in_or_app; now left).
    destruct e as [g| |]; simpl.
    + repeat split.
      * exact Hone.
      * intros g' H. injection H as <-. apply in_or_app. right. now left.
      * intros o H. destruct (Hsum o H) as (g' & Hin & ->). eauto.
      * intros d H. destruct (Hdet d H) as (g' & Hin & Hd). eauto.
    + unfold showSummary. destruct (geoJson st) as [g|] eqn:Eg; simpl.
      * repeat split.
        -- now right.
        -- intros g' H. injection H as <-. auto.
        -- intros o H. injection H as <-. exists g. auto.
        -- discriminate.
      * repeat split.
        -- exact Hone.
        -- rewrite Eg. discriminate.
        -- intros o H. destruct (Hsum o H) as (g' & Hin & ->). eauto.
        -- intros d H. destruct (Hdet d H) as (g' & Hin & Hd). eauto.
    + assert (Hkeep :
                (summary st = None \/ details st = None) /\
                (forall g, geoJson st = Some g ->
                           In (FileLoaded g) (events ++ [ShowDetailsClicked])) /\
                (forall o, summary st = Some o ->
                           exists g,
                             In (FileLoaded g) (events ++ [ShowDetailsClicked])
                             /\ o = elementCountOf (features g)) /\
                (forall d, details st = Some d ->
                           exists g,
                             In (FileLoaded g) (events ++ [ShowDetailsClicked])
                             /\ detailedDataOf (features g) = Ok d)).
      { repeat split.
        - exact Hone.
        - auto.
        - intros o H. destruct (Hsum o H) as (g' & Hin & ->). eauto.
        - intros d H. destruct (Hdet d H) as (g' & Hin & Hd). eauto. }
      destruct (showDetails st) as [st'|] eqn:Es; [| exact Hkeep].
      assert (Hcases : geoJson st = None \/ exists g, geoJson st = Some g)
        by (destruct (geoJson st); eauto).
      destruct Hcases as [Eg|[g Eg]].
      * unfold showDetails in Es. rewrite Eg in Es. injection Es as <-.
        exact Hkeep.
      * destruct (showDetails_state st st' g Eg Es)
          as (data & Hd & Hdet' & Hsum' & Hg').
        repeat split.
        -- now left.
        -- intros g' H. rewrite Hg' in H. injection H as <-. auto.
        -- rewrite Hsum'. discriminate.
        -- intros d H. rewrite Hdet' in H. injection H as <-. exists g. auto.
Qed.

(** X20.  The two buttons replace one another: pressing "Show Summary"
    after "Show Details" gives what "Show Summary" alone gives, and the other
    way round; pressing a button twice is the same as pressing it once. *)
Theorem handlers_compose (st : AppState) :
  showSummary (showSummary st) = showSummary st /\
  showDetails (showSummary st) = showDetails st /\
  (forall st', showDetails st = Ok st' ->
               showSummary st' = showSummary st /\
               showDetails st' = Ok st').
Proof.
  unfold showSummary, showDetails.
  destruct (geoJson st) as [g|] eqn:Eg; simpl; rewrite ?Eg.
  - split; [reflexivity |]. split; [reflexivity |].
    intros st' H.
    destruct (detailedDataOf (features g)) as [data|] eqn:Ed; simpl in H;
      [| discriminate].
    injection H as <-. simpl. rewrite Ed. simpl. auto.
  - split; [reflexivity |]. split; [reflexivity |].
    intros st' H. injection H as <-. now rewrite Eg.
Qed.

Lemma run_tables_invariant_witness :
  exists g,
    In (FileLoaded g)
       [FileLoaded mixedCollection; ShowSummaryClicked;
        FileLoaded infinitePointCollection] /\
    elementCountOf (features mixedCollection) = elementCountOf (features g).
Proof.
  destruct (run_tables_invariant
              [FileLoaded mixedCollection; ShowSummaryClicked;
               FileLoaded infinitePointCollection]) as (_ & _ & H & _).
  apply H. reflexivity.
Defined.

Lemma handlers_compose_witness :
  showSummary
    {| geoJson := Some {| features := [namelessLine] |};
       summary := None;
       details := Some [ {| itemType := "LineString";
                            itemLength :=
                              toFixed (lineLength
                                         (JArr [pair (Fin 0%R) (Fin 0%R);
                                                pair (Fin 0%R) (Fin 1%R)])) 2;
                            itemName := "Unnamed" |} ] |}
  = showSummary {| geoJson := Some {| features := [namelessLine] |};
                   summary := None; details := None |}.
Proof.
  destruct (handlers_compose
              {| geoJson := Some {| features := [namelessLine] |};
                 summary := None; details := None |}) as (_ & _ & H).
  apply H. reflexivity.
Defined.

Lemma elementCountOf_keys_witness :
  In "GeometryCollection" (keys (elementCountOf [geometryCollectionFeature])).
Proof.
  destruct (elementCountOf_keys [geometryCollectionFeature]) as [_ H].
  apply H. right. repeat split; try discriminate.
  unfold countKind. simpl. lia.
Defined.
